(** * npm-http-server: resolution-and-serving pipeline

    A shallow embedding of [modules/index.js] (the request handler, the
    cache gate and the file resolver) and of [modules/TreeUtils.js] (the
    directory tree builder), with the properties of the specification
    stated and proved over it.

    Conventions of the embedding.
    - Node's callback style is written in direct style.  Every call that
      reaches the outside world (a [stat], a manifest read, a registry
      lookup, a tarball fetch) is recorded, in program order, in a trace of
      [Event]s carried by the [IO] writer monad.
    - The file system is an oracle: what [fs.stat], [fs.lstat], [fs.readdir]
      and [fs.readFile] answer for each path.
    - JavaScript objects used as maps (the registry's [versions] and
      [dist-tags], the parsed [package.json]) are association lists of their
      own keys, in key order; the [in] operator and property reads see these
      and, behind them, the properties that every object inherits from
      [Object.prototype].
    - The depth of the tree builder is a natural number; the handler's
      default depth, [Number.MAX_VALUE], never runs out. *)

From Stdlib Require Import String Ascii List ZArith Bool Lia.
Import ListNotations.
Local Open Scope list_scope.
Local Open Scope string_scope.

(** ** JavaScript strings *)

(** The double quote character, as a string. *)
Definition dq : string := String (ascii_of_nat 34) EmptyString.

(** Truthiness of a string: every string but the empty one. *)
Definition truthy (s : string) : bool := negb (s =? "").

(** [s[s.length - 1]]: the last character, [undefined] on the empty string. *)
Fixpoint lastChar (s : string) : option ascii :=
  match s with
  | EmptyString => None
  | String c EmptyString => Some c
  | String _ rest => lastChar rest
  end.

Definition firstChar (s : string) : option ascii :=
  match s with
  | EmptyString => None
  | String c _ => Some c
  end.

Definition isSlash (c : option ascii) : bool :=
  match c with
  | Some c => Ascii.eqb c "/"%char
  | None => false
  end.

(** [s.slice(0, e)]: a negative end counts from the end of the string, and
    the result is clamped to the string. *)
Definition slice0 (s : string) (e : Z) : string :=
  let len := Z.of_nat (String.length s) in
  let e' := if (e <? 0)%Z then Z.max (len + e) 0 else Z.min e len in
  substring 0 (Z.to_nat e') s.

(** ** Node's [path.join] (POSIX flavour) *)

Module Path.

(** The segments of a path between its separators. *)
Fixpoint split (s : string) : list string :=
  match s with
  | EmptyString => [EmptyString]
  | String c rest =>
      if Ascii.eqb c "/"%char then EmptyString :: split rest
      else match split rest with
           | [] => [String c EmptyString]
           | seg :: segs => String c seg :: segs
           end
  end.

(** One step of [normalizeString]: the stack holds the segments kept so
    far, the last one first. *)
Definition normStep (allowAboveRoot : bool) (stack : list string)
    (seg : string) : list string :=
  if (seg =? "") || (seg =? ".") then stack
  else if seg =? ".." then
    match stack with
    | top :: below =>
        if top =? ".." then (if allowAboveRoot then ".." :: stack else stack)
        else below
    | [] => if allowAboveRoot then [".."] else []
    end
  else seg :: stack.

Definition normalize (path : string) : string :=
  if path =? "" then "."
  else
    let isAbsolute := isSlash (firstChar path) in
    let trailingSeparator := isSlash (lastChar path) in
    let segs := rev (fold_left (normStep (negb isAbsolute)) (split path) []) in
    let p := String.concat "/" segs in
    if p =? "" then
      (if isAbsolute then "/" else if trailingSeparator then "./" else ".")
    else
      let p' := if trailingSeparator then p ++ "/" else p in
      if isAbsolute then "/" ++ p' else p'.

(** [path.join(a, b)]: empty arguments are skipped. *)
Definition join (a b : string) : string :=
  if a =? "" then (if b =? "" then "." else normalize b)
  else if b =? "" then normalize a
  else normalize (a ++ "/" ++ b).

End Path.

Definition joinPaths := Path.join.

(** ** The file system *)

(** The errors Node hands to a callback: [error.code] and [error.message].
    An error without a code has the empty string there. *)
Record JsError := mkError { code : string; message : string }.

(** What kind of node a [Stats] object describes: the predicates
    [isFile()], [isDirectory()], ... are mutually exclusive, and all of
    them are false on [OtherNode]. *)
Inductive NodeKind :=
| RegularFile | Directory | BlockDevice | CharacterDevice
| SymbolicLink | FIFO | Socket | OtherNode.

(** [mtimeISO] is [new Date(stats.mtime).toISOString()]. *)
Record Stats := mkStats { kind : NodeKind; mtimeISO : string; size : Z }.

Definition isFile (s : Stats) : bool :=
  match kind s with RegularFile => true | _ => false end.
Definition isDirectory (s : Stats) : bool :=
  match kind s with Directory => true | _ => false end.
Definition isBlockDevice (s : Stats) : bool :=
  match kind s with BlockDevice => true | _ => false end.
Definition isCharacterDevice (s : Stats) : bool :=
  match kind s with CharacterDevice => true | _ => false end.
Definition isSymbolicLink (s : Stats) : bool :=
  match kind s with SymbolicLink => true | _ => false end.
Definition isFIFO (s : Stats) : bool :=
  match kind s with FIFO => true | _ => false end.
Definition isSocket (s : Stats) : bool :=
  match kind s with Socket => true | _ => false end.

(** A value, as far as the handler looks into a manifest: strings in full,
    the other values up to their truthiness.  [JObject] is any object, a
    function included. *)
Inductive JsValue :=
| JString (s : string)
| JNumber (n : Z)
| JBool (b : bool)
| JNull
| JObject
| JArray.

(** Reading a manifest: [readFile] may fail; [JSON.parse] of the data may
    throw (with a message); otherwise the data parses to an object. *)
Inductive ManifestRead :=
| ReadFailed (error : JsError)
| ParseFailed (msg : string)
| Parsed (packageConfig : list (string * JsValue)).

Record FS := mkFS {
  fs_stat : string -> JsError + Stats;
  fs_lstat : string -> JsError + Stats;
  fs_readdir : string -> JsError + list string;
  fs_readManifest : string -> ManifestRead
}.

(** ** Traces *)

Inductive Event :=
| EvStat (path : string)
| EvReadFile (path : string)
| EvRegistry (registryURL packageName : string)
| EvGetPackage (tarballURL dir : string)
| EvBower (dir : string)
| EvTree (baseDir dir : string).

Definition IO (A : Type) : Type := A * list Event.

Definition ret {A} (a : A) : IO A := (a, []).

Definition bind {A B} (m : IO A) (k : A -> IO B) : IO B :=
  let (b, t) := k (fst m) in (b, (snd m ++ t)%list).

Definition emit (e : Event) : IO unit := (tt, [e]).

Notation "x <- m ;; k" := (bind m (fun x => k))
  (at level 61, m at next level, right associativity).

Definition result {A} (m : IO A) : A := fst m.
Definition trace {A} (m : IO A) : list Event := snd m.

(** [fs.stat(path, callback)] *)
Definition statFile (fs : FS) (path : string) : IO (JsError + Stats) :=
  _ <- emit (EvStat path) ;; ret (fs_stat fs path).

(** ** Cache gate *)

Definition checkLocalCache (fs : FS) (dir : string) : IO bool :=
  r <- statFile fs (joinPaths dir "package.json") ;;
  ret (match r with
       | inr stats => isFile stats
       | inl _ => false
       end).

(** ** File resolver *)

Definition ResolveExtensions : list string := [""; ".js"; ".json"].

(** What [resolveFile] hands to its callback: [(null, filename)], [(error)]
    or nothing at all. *)
Inductive Resolved :=
| ResolvedFile (filename : string)
| ResolveError (error : JsError)
| NotResolved.

(** The chain that [reduceRight] builds over the extensions, the first
    extension outermost; [self] is the resolver called on an index file. *)
Fixpoint tryExtensions (self : string -> bool -> IO Resolved) (fs : FS)
    (file : string) (useIndex : bool) (exts : list string) : IO Resolved :=
  match exts with
  | [] => ret NotResolved
  | ext :: rest =>
      let filename := file ++ ext in
      let next := tryExtensions self fs file useIndex rest in
      r <- statFile fs filename ;;
      match r with
      | inr stats =>
          if isFile stats then ret (ResolvedFile filename)
          else if useIndex && isDirectory stats then
            i <- self (joinPaths filename "index") false ;;
            match i with
            | ResolveError error => ret (ResolveError error)
            | ResolvedFile indexFile =>
                if truthy indexFile then ret (ResolvedFile indexFile) else next
            | NotResolved => next
            end
          else next
      | inl error =>
          if negb (code error =? "ENOENT") then ret (ResolveError error)
          else next
      end
  end.

(** [resolveFile] calls itself only on an index file and with [useIndex]
    false, where it calls itself no more: two levels unfold the recursion
    (see [resolveFile_unfold]). *)
Definition resolveFile (fs : FS) (file : string) (useIndex : bool)
    : IO Resolved :=
  tryExtensions
    (fun f u => tryExtensions (fun _ _ => ret NotResolved) fs f u ResolveExtensions)
    fs file useIndex ResolveExtensions.

(** ** Directory tree builder (TreeUtils) *)

(** The [children] property of an entry object: the key may be missing
    (a file entry), hold [null], or hold an array of entries. *)
Inductive Entry :=
| mkEntry (path lastModified mime : string) (size : Z) (type : string)
    (children : Children)
with Children :=
| ChildrenAbsent
| ChildrenNull
| ChildrenArray (entries : list Entry).

Definition entry_path (e : Entry) : string :=
  match e with mkEntry p _ _ _ _ _ => p end.
Definition entry_type (e : Entry) : string :=
  match e with mkEntry _ _ _ _ t _ => t end.
Definition entry_children (e : Entry) : Children :=
  match e with mkEntry _ _ _ _ _ c => c end.

(** [Promise.all] over a mapped array: the results in the order of the
    array, or a rejection (the first one in array order). *)
Fixpoint promiseAll {A B} (f : A -> JsError + B) (l : list A)
    : JsError + list B :=
  match l with
  | [] => inr []
  | x :: rest =>
      match f x with
      | inl error => inl error
      | inr y =>
          match promiseAll f rest with
          | inl error => inl error
          | inr ys => inr (y :: ys)
          end
      end
  end.

Definition getStats (fs : FS) (file : string) : JsError + Stats :=
  fs_lstat fs file.

Definition getType (stats : Stats) : string :=
  if isFile stats then "file"
  else if isDirectory stats then "directory"
  else if isBlockDevice stats then "blockDevice"
  else if isCharacterDevice stats then "characterDevice"
  else if isSymbolicLink stats then "symlink"
  else if isFIFO stats then "fifo"
  else if isSocket stats then "socket"
  else "unknown".

Section TreeUtils.

(** [getContentType] of ResponseUtils: the MIME type looked up from a
    path. *)
Variable getContentType : string -> string.
Variable fs : FS.

(** [maximumDepth] ranges over the natural numbers; [getEntries'] stands
    for the recursive call of [getEntries]. *)
Definition resolveDirectory
    (getEntries' : string -> string -> nat -> JsError + list Entry)
    (baseDir path : string) (stats : Stats) (maximumDepth : nat)
    : JsError + Entry :=
  let children :=
    match maximumDepth with
    | S depth' =>
        match getEntries' baseDir path depth' with
        | inl error => inl error
        | inr entries => inr (ChildrenArray entries)
        end
    | O => inr ChildrenNull
    end in
  match children with
  | inl error => inl error
  | inr children =>
      inr (mkEntry path (mtimeISO stats) (getContentType path) (size stats)
             (getType stats) children)
  end.

Definition resolveEntry
    (getEntries' : string -> string -> nat -> JsError + list Entry)
    (baseDir path : string) (stats : Stats) (maximumDepth : nat)
    : JsError + Entry :=
  if isDirectory stats
  then resolveDirectory getEntries' baseDir path stats maximumDepth
  else inr (mkEntry path (mtimeISO stats) (getContentType path) (size stats)
              (getType stats) ChildrenAbsent).

Fixpoint getEntries (baseDir name : string) (maximumDepth : nat)
    {struct maximumDepth} : JsError + list Entry :=
  let dir := joinPaths baseDir name in
  match fs_readdir fs dir with
  | inl error => inl error
  | inr files =>
      match promiseAll (fun file => getStats fs (joinPaths dir file)) files with
      | inl error => inl error
      | inr statsArray =>
          promiseAll
            (fun '(file, stats) =>
               resolveEntry getEntries baseDir (joinPaths name file) stats
                 maximumDepth)
            (combine files statsArray)
      end
  end.

(** [callback(error, json)] *)
Definition generateDirectoryTree (baseDir dir : string) (maximumDepth : nat)
    : JsError + list Entry :=
  getEntries baseDir dir maximumDepth.

End TreeUtils.

(** The entry and the entries below it expand every directory: no
    [children] is [null]. *)
Fixpoint expanded (e : Entry) : bool :=
  match e with
  | mkEntry _ _ _ _ _ children =>
      match children with
      | ChildrenAbsent => true
      | ChildrenNull => false
      | ChildrenArray entries =>
          (fix all (l : list Entry) : bool :=
             match l with
             | [] => true
             | x :: rest => expanded x && all rest
             end) entries
      end
  end.

(** ** JavaScript objects used as maps *)

(** [obj[key]], [undefined] when [key] is not a key of [obj]. *)
Fixpoint lookup {V} (key : string) (obj : list (string * V)) : option V :=
  match obj with
  | [] => None
  | (k, v) :: rest => if k =? key then Some v else lookup key rest
  end.

(** [key] is an own key of [obj]. *)
Definition hasKey {V} (key : string) (obj : list (string * V)) : bool :=
  match lookup key obj with Some _ => true | None => false end.

(** The names of the properties of [Object.prototype], which every object
    inherits: their values are functions, and the value of [__proto__] is
    [Object.prototype] itself. *)
Definition ObjectPrototype : list string :=
  ["constructor"; "__defineGetter__"; "__defineSetter__"; "hasOwnProperty";
   "__lookupGetter__"; "__lookupSetter__"; "isPrototypeOf";
   "propertyIsEnumerable"; "toString"; "valueOf"; "__proto__";
   "toLocaleString"].

Definition inherited (key : string) : bool :=
  existsb (String.eqb key) ObjectPrototype.

(** [key in obj]: an own key or an inherited one. *)
Definition hasProperty {V} (key : string) (obj : list (string * V)) : bool :=
  hasKey key obj || inherited key.

(** [Object.keys(obj)] *)
Definition keys {V} (obj : list (string * V)) : list string := map fst obj.

Definition jsTruthy (v : JsValue) : bool :=
  match v with
  | JString s => truthy s
  | JNumber n => negb (n =? 0)%Z
  | JBool b => b
  | JNull => false
  | JObject | JArray => true
  end.

(** ** The request handler *)

Definition OneMinute : Z := 60.
Definition OneDay : Z := OneMinute * 60 * 24.
Definition OneYear : Z := OneDay * 365.

(** The request as the handler reads it: [req.url], [req.originalUrl] (set
    by whatever mounts the handler, such as the wrapper's [fromConnect]) and
    [req.query] (absent unless a query parser ran before the handler). *)
Record Request := mkRequest {
  url : string;
  originalUrl : string;
  query : option (list (string * string))
}.

(** What [parsePackageURL] returns on a well-formed URL.  An absent
    filename is the empty string. *)
Record PackageURL := mkPackageURL {
  packageName : string;
  version : string;
  filename : string;
  search : string
}.

(** The options of [createRequestHandler], each one possibly left out. *)
Record Options := mkOptions {
  opt_registryURL : option string;
  opt_bowerBundle : option string;
  opt_redirectTTL : option Z;
  opt_autoIndex : option bool;
  opt_maximumDepth : option nat
}.

(** A version's entry in the registry document: [dist.tarball]. *)
Record VersionConfig := mkVersionConfig { dist_tarball : string }.

(** [response.jsonData]: [versions] and ['dist-tags'], each possibly
    missing from the document. *)
Record PackageInfo := mkPackageInfo {
  versions : option (list (string * VersionConfig));
  dist_tags : option (list (string * string))
}.

(** What [getPackageInfo] hands to its callback. *)
Inductive RegistryAnswer :=
| RegistryFailed (error : JsError)
| RegistryResponse (status : Z) (jsonData : option PackageInfo).

(** The modules the handler imports and the world it runs in.
    - [parsePackageURL], [createPackageURL] (PackageUtils), [getContentType]
      (ResponseUtils) and [maxSatisfyingVersion] (semver) are functions;
    - [getPackageInfo] (RegistryUtils) answers for the registry;
    - [getPackage] (PackageUtils) fetches and extracts a tarball: it may
      fail, and it leaves the file system changed;
    - [createBowerPackage] (BowerUtils) answers [(error)], [(null, null)] or
      [(null, file)];
    - [TmpDir] is [os-tmpdir]'s directory;
    - [nestingBound] is the depth to which the model follows a listing of
      the default depth [Number.MAX_VALUE], which never runs out
      ([Number.MAX_VALUE - 1] is [Number.MAX_VALUE]): a listing that nests
      deeper than [nestingBound] is not decided (see [directoryTree]). *)
Record World := mkWorld {
  parsePackageURL : string -> option PackageURL;
  createPackageURL : string -> string -> string -> string -> string;
  getContentType : string -> string;
  maxSatisfyingVersion : list string -> string -> option string;
  getPackageInfo : string -> string -> RegistryAnswer;
  getPackage : string -> string -> FS -> option JsError * FS;
  createBowerPackage : FS -> string -> JsError + option string;
  TmpDir : string;
  nestingBound : nat
}.

(** The response helpers of ResponseUtils, one constructor for each, with
    the arguments after [res].  [sendServerError] is given an error object
    or a message; a message is kept as an error without a code.
    [uncaughtTypeError] is no helper: the handler threw.  [beyondBound] is
    no response of the code: the listing nests deeper than the model
    follows it. *)
Inductive Response :=
| sendInvalidURLError (url : string)
| sendServerError (error : JsError)
| sendNotFoundError (what : string)
| sendRedirect (location : string) (ttl : Z)
| sendFile (file : string) (maxAge : Z)
| sendText (status : Z) (text : string)
| sendJSON (json : list Entry) (maxAge : Z)
| uncaughtTypeError
| beyondBound.

Definition orElse (o : option string) (default : string) : string :=
  match o with
  | Some s => if truthy s then s else default
  | None => default
  end.

Section Handler.

Variable w : World.
Variable options : Options.

Definition registryURL : string :=
  orElse (opt_registryURL options) "https://registry.npmjs.org".
Definition bowerBundle : string :=
  orElse (opt_bowerBundle options) "/bower.zip".
Definition redirectTTL : Z :=
  match opt_redirectTTL options with Some ttl => ttl | None => 0%Z end.
Definition autoIndex : bool :=
  match opt_autoIndex options with Some false => false | _ => true end.
(** [options.maximumDepth || Number.MAX_VALUE]: [None] is
    [Number.MAX_VALUE]. *)
Definition maximumDepth : option nat :=
  match opt_maximumDepth options with
  | Some (S n) => Some (S n)
  | _ => None
  end.

Section Request.

Variable req : Request.
Variable parsed : PackageURL.

Definition baseUrl : string :=
  slice0 (originalUrl req)
    (Z.of_nat (String.length (originalUrl req))
     - Z.of_nat (String.length (url req))).

Definition displayName : string :=
  packageName parsed ++ "@" ++ version parsed.

Definition tarballDir : string :=
  joinPaths (TmpDir w) (packageName parsed ++ "-" ++ version parsed).

Definition fileNotFound : string :=
  "file " ++ dq ++ filename parsed ++ dq ++ " in package " ++ displayName.

Definition packageNotFound : string :=
  "package " ++ packageName parsed ++ "@" ++ version parsed.

(** [generateDirectoryTree(tarballDir, filename, maximumDepth, callback)].
    At the depth [Number.MAX_VALUE] every directory is expanded: the tree
    built to the depth [nestingBound] is that tree when it expands every
    directory (see [getEntries_stable]), and else the listing is not
    decided.  A build that fails at the depth [nestingBound] fails at a
    greater depth, too. *)
Definition directoryTree (fs : FS) : option (JsError + list Entry) :=
  match maximumDepth with
  | Some depth =>
      Some (generateDirectoryTree (getContentType w) fs tarballDir
              (filename parsed) depth)
  | None =>
      match generateDirectoryTree (getContentType w) fs tarballDir
              (filename parsed) (nestingBound w) with
      | inr json => if forallb expanded json then Some (inr json) else None
      | inl error => Some (inl error)
      end
  end.

Definition serveFile (fs : FS) : IO Response :=
  if filename parsed =? bowerBundle then
    _ <- emit (EvBower tarballDir) ;;
    match createBowerPackage w fs tarballDir with
    | inl error => ret (sendServerError error)
    | inr None =>
        ret (sendNotFoundError ("bower.zip in package " ++ displayName))
    | inr (Some file) => ret (sendFile file OneYear)
    end
  else if truthy (filename parsed) then
    let filepath := joinPaths tarballDir (filename parsed) in
    let directoryIndex : IO Response :=
      if autoIndex then
        s <- statFile fs filepath ;;
        match s with
        | inr stats =>
            if isDirectory stats then
              if negb (isSlash (lastChar (url req))) then
                ret (sendRedirect (baseUrl ++ "/") redirectTTL)
              else
                _ <- emit (EvTree tarballDir (filename parsed)) ;;
                match directoryTree fs with
                | Some (inr json) => ret (sendJSON json OneYear)
                | Some (inl _) =>
                    ret (sendServerError
                           (mkError ""
                              ("unable to generate index json for "
                               ++ displayName ++ filename parsed)))
                | None => ret beyondBound
                end
            else ret (sendNotFoundError fileNotFound)
        | inl _ => ret (sendNotFoundError fileNotFound)
        end
      else ret (sendNotFoundError fileNotFound) in
    r <- resolveFile fs filepath false ;;
    match r with
    | ResolveError error => ret (sendServerError error)
    | ResolvedFile file =>
        if truthy file then ret (sendFile file OneYear) else directoryIndex
    | NotResolved => directoryIndex
    end
  else
    let manifest := joinPaths tarballDir "package.json" in
    _ <- emit (EvReadFile manifest) ;;
    match fs_readManifest fs manifest with
    | ReadFailed error => ret (sendServerError error)
    | ParseFailed msg =>
        ret (sendText 500 ("Error parsing package.json: " ++ msg))
    | Parsed packageConfig =>
        let queryMain :=
          match query req with
          | Some q => match lookup "main" q with Some m => m | None => "" end
          | None => ""
          end in
        if truthy queryMain && negb (hasProperty queryMain packageConfig) then
          ret (sendNotFoundError
                 ("field " ++ dq ++ queryMain ++ dq ++ " in package.json of "
                  ++ packageName parsed ++ "@" ++ version parsed))
        else
          let mainProperty := if truthy queryMain then queryMain else "main" in
          let mainFilename :=
            match lookup mainProperty packageConfig with
            | Some v => if jsTruthy v then v else JString "index"
            | None => if inherited mainProperty then JObject else JString "index"
            end in
          match mainFilename with
          | JString mainFilename =>
              r <- resolveFile fs (joinPaths tarballDir mainFilename) true ;;
              match r with
              | ResolveError error => ret (sendServerError error)
              | NotResolved =>
                  ret (sendNotFoundError
                         ("main file " ++ dq ++ mainFilename ++ dq
                          ++ " in package " ++ packageName parsed ++ "@"
                          ++ version parsed))
              | ResolvedFile file => ret (sendFile file OneYear)
              end
          | _ => ret uncaughtTypeError
          end
    end.

(** The callback of [getPackageInfo], with what the registry
    answered. *)
Definition onPackageInfo (fs : FS) (answer : RegistryAnswer) : IO Response :=
  match answer with
  | RegistryFailed error => ret (sendServerError error)
  | RegistryResponse status jsonData =>
      if (status =? 404)%Z then
        ret (sendNotFoundError ("package " ++ dq ++ packageName parsed ++ dq))
      else
        let unable :=
          sendServerError
            (mkError ""
               ("Unable to retrieve info for package " ++ packageName parsed)) in
        match jsonData with
        | None => ret unable
        | Some info =>
            match versions info with
            | None => ret unable
            | Some versions =>
                match lookup (version parsed) versions with
                | Some packageConfig =>
                    let tarballURL := dist_tarball packageConfig in
                    _ <- emit (EvGetPackage tarballURL tarballDir) ;;
                    match getPackage w tarballURL tarballDir fs with
                    | (Some error, _) => ret (sendServerError error)
                    | (None, fs') => serveFile fs'
                    end
                | None =>
                    if inherited (version parsed) then
                      (* [versions[version]] is inherited: it has no [dist] *)
                      ret uncaughtTypeError
                    else
                    match dist_tags info with
                    | None => ret uncaughtTypeError
                    | Some tags =>
                        match lookup (version parsed) tags with
                        | Some tagged =>
                            ret (sendRedirect
                                   (baseUrl
                                    ++ createPackageURL w (packageName parsed)
                                         tagged (filename parsed)
                                         (search parsed))
                                   redirectTTL)
                        | None =>
                            match maxSatisfyingVersion w (keys versions)
                                    (version parsed) with
                            | Some maxVersion =>
                                if truthy maxVersion then
                                  ret (sendRedirect
                                         (baseUrl
                                          ++ createPackageURL w
                                               (packageName parsed)
                                               maxVersion (filename parsed)
                                               (search parsed))
                                         redirectTTL)
                                else ret (sendNotFoundError packageNotFound)
                            | None => ret (sendNotFoundError packageNotFound)
                            end
                        end
                    end
                end
            end
        end
  end.

(** The handler once the URL has parsed. *)
Definition handleParsed (fs : FS) : IO Response :=
  isCached <- checkLocalCache fs tarballDir ;;
  if isCached then serveFile fs
  else
    _ <- emit (EvRegistry registryURL (packageName parsed)) ;;
    onPackageInfo fs (getPackageInfo w registryURL (packageName parsed)).

End Request.

Definition handleRequest (fs : FS) (req : Request) : IO Response :=
  match parsePackageURL w (url req) with
  | None => ret (sendInvalidURLError (url req))
  | Some parsed => handleParsed req parsed fs
  end.

End Handler.

(** [createRequestHandler(options)] is the handler closed over its
    options. *)
Definition createRequestHandler (w : World) (options : Options)
    : FS -> Request -> IO Response :=
  handleRequest w options.

(** ** Instances of the imported modules

    The handler is stated over any [World]; the instances below serve to
    run it on concrete requests. *)

Module Instances.

(** The part of [s] before the first [c], and the rest from that [c] on
    (empty when there is no [c]). *)
Fixpoint breakAt (c : ascii) (s : string) : string * string :=
  match s with
  | EmptyString => (EmptyString, EmptyString)
  | String a rest =>
      if Ascii.eqb a c then (EmptyString, s)
      else let (before, from) := breakAt c rest in (String a before, from)
  end.

(** The parts of [s] before and after its last [c]. *)
Fixpoint splitLast (c : ascii) (s : string) : option (string * string) :=
  match s with
  | EmptyString => None
  | String a rest =>
      match splitLast c rest with
      | Some (before, after) => Some (String a before, after)
      | None => if Ascii.eqb a c then Some (EmptyString, rest) else None
      end
  end.

Definition dropFirst (s : string) : string :=
  match s with
  | EmptyString => EmptyString
  | String _ rest => rest
  end.

(** Modelled from the spec: the Path Parser, [parsePackageURL] of
    PackageUtils, which is not among the sources.  The grammar is
    [/ name [@ versionToken] [/ filename...] [? query]]; the name may be
    scoped ([@scope/name]); the version separator is the last [@] of the
    name's segment, the scope's leading [@] apart; a missing version token
    stands for the [latest] tag; the filename is everything after the
    package segment, verbatim; an empty name and the root path are
    invalid. *)
Definition parsePackageURL (url : string) : option PackageURL :=
  let (pathname, search) := breakAt "?"%char url in
  match pathname with
  | String "/"%char rest =>
      let (first, afterFirst) := breakAt "/"%char rest in
      let '(scope, segment, filename) :=
        match first with
        | String "@"%char _ =>
            let (second, afterSecond) := breakAt "/"%char (dropFirst afterFirst) in
            (first ++ "/", second, afterSecond)
        | _ => (EmptyString, first, afterFirst)
        end in
      let (name, token) :=
        match splitLast "@"%char segment with
        | Some (name, token) => (name, token)
        | None => (segment, EmptyString)
        end in
      if name =? "" then None
      else Some (mkPackageURL (scope ++ name)
                   (if token =? "" then "latest" else token) filename search)
  | _ => None
  end.

(** Modelled from the spec: [createPackageURL] of PackageUtils, which is
    not among the sources: the canonical URL of a package, a version, a
    filename and a search. *)
Definition createPackageURL (packageName version filename search : string)
    : string :=
  "/" ++ packageName ++ "@" ++ version ++ filename ++ search.

(** Modelled from the spec: the content type lookup of ResponseUtils,
    which is not among the sources; here by the extension of the path,
    for the two extensions of the resolver. *)
Definition getContentType (path : string) : string :=
  match splitLast "."%char path with
  | Some (_, "js") => "application/javascript"
  | Some (_, "json") => "application/json"
  | _ => "text/plain"
  end.

(** *** Semantic versions *)

Definition digit (c : ascii) : option nat :=
  let n := nat_of_ascii c in
  if (48 <=? n)%nat && (n <=? 57)%nat then Some (n - 48)%nat else None.

Fixpoint number (acc : nat) (s : string) : option nat :=
  match s with
  | EmptyString => Some acc
  | String c rest =>
      match digit c with
      | Some d => number (10 * acc + d) rest
      | None => None
      end
  end.

Definition parseNumber (s : string) : option nat :=
  if s =? "" then None else number 0 s.

(** [major.minor.patch] *)
Definition parseVersion (s : string) : option (nat * nat * nat) :=
  let (major, afterMajor) := breakAt "."%char s in
  let (minor, afterMinor) := breakAt "."%char (dropFirst afterMajor) in
  match parseNumber major, parseNumber minor,
        parseNumber (dropFirst afterMinor) with
  | Some a, Some b, Some c => Some (a, b, c)
  | _, _, _ => None
  end.

Definition versionLt (v1 v2 : nat * nat * nat) : bool :=
  let '(a1, b1, c1) := v1 in
  let '(a2, b2, c2) := v2 in
  (a1 <? a2)%nat
  || ((a1 =? a2)%nat && ((b1 <? b2)%nat
                         || ((b1 =? b2)%nat && (c1 <? c2)%nat))).

(** The ranges of this instance: an exact version, and a caret on a major
    version ([^1] is every [1.x.y]). *)
Definition satisfies (v : nat * nat * nat) (range : string) : bool :=
  match range with
  | String "^"%char major =>
      match parseNumber major with
      | Some m => (fst (fst v) =? m)%nat
      | None => false
      end
  | _ =>
      match parseVersion range with
      | Some r => negb (versionLt v r) && negb (versionLt r v)
      | None => false
      end
  end.

(** Modelled from the spec: [maxSatisfying] of the semver package, for
    the ranges above: the highest version of the list that the range
    matches, [null] when there is none. *)
Fixpoint maxSatisfyingVersion (versions : list string) (range : string)
    : option string :=
  match versions with
  | [] => None
  | s :: rest =>
      let best := maxSatisfyingVersion rest range in
      match parseVersion s with
      | Some v =>
          if satisfies v range then
            match best with
            | Some s' =>
                match parseVersion s' with
                | Some v' => if versionLt v v' then Some s' else Some s
                | None => Some s
                end
            | None => Some s
            end
          else best
      | None => best
      end
  end.

End Instances.

(** ** Vocabulary of the properties *)

(** The chain passes over a candidate, by what [stat] answers for it: the
    candidate is absent, or it is there but is no regular file (nor, when
    the index fallback is on, a directory). *)
Definition passedOver (useIndex : bool) (r : JsError + Stats) : Prop :=
  match r with
  | inl error => code error = "ENOENT"
  | inr stats => isFile stats = false /\ (useIndex && isDirectory stats) = false
  end.

(** The [stat] calls on the candidates [file + ext], in order. *)
Definition candidates (file : string) (exts : list string) : list Event :=
  map (fun ext => EvStat (file ++ ext)) exts.

(** A computation stops at the first [stat] that fails with anything but
    ENOENT, and answers that error. *)
Definition failsFast (fs : FS) (m : IO Resolved) : Prop :=
  forall p error,
    In (EvStat p) (trace m) ->
    fs_stat fs p = inl error ->
    code error <> "ENOENT" ->
    result m = ResolveError error /\ exists tr, trace m = (tr ++ [EvStat p])%list.

(** A NotFound text names what is missing: the package, the package at a
    version token, a file, the bower bundle, a manifest field, or the main
    file. *)
Definition namesSubject (parsed : PackageURL) (what : string) : Prop :=
  what = "package " ++ dq ++ packageName parsed ++ dq
  \/ what = "package " ++ packageName parsed ++ "@" ++ version parsed
  \/ what = "file " ++ dq ++ filename parsed ++ dq ++ " in package "
            ++ packageName parsed ++ "@" ++ version parsed
  \/ what = "bower.zip in package " ++ packageName parsed ++ "@"
            ++ version parsed
  \/ (exists field,
        what = "field " ++ dq ++ field ++ dq ++ " in package.json of "
               ++ packageName parsed ++ "@" ++ version parsed)
  \/ (exists main,
        what = "main file " ++ dq ++ main ++ dq ++ " in package "
               ++ packageName parsed ++ "@" ++ version parsed).

(** The events of the resolver, and the one event of a fetch. *)
Definition isStat (e : Event) : Prop :=
  match e with EvStat _ => True | _ => False end.

Definition isFetch (e : Event) : Prop :=
  match e with EvGetPackage _ _ => True | _ => False end.

(** The resolver as the specification words it: the three candidates in
    order, the first that is a regular file; only when none is, and the
    path is a directory, and the index fallback is on, the same on
    [path/index]. *)
Fixpoint specExtensions (fs : FS) (path : string) (exts : list string)
    : Resolved :=
  match exts with
  | [] => NotResolved
  | ext :: rest =>
      match fs_stat fs (path ++ ext) with
      | inr stats =>
          if isFile stats then ResolvedFile (path ++ ext)
          else specExtensions fs path rest
      | inl error =>
          if code error =? "ENOENT" then specExtensions fs path rest
          else ResolveError error
      end
  end.

Definition specResolve (fs : FS) (path : string) (useIndexFallback : bool)
    : Resolved :=
  match specExtensions fs path ResolveExtensions with
  | NotResolved =>
      match fs_stat fs path with
      | inr stats =>
          if useIndexFallback && isDirectory stats
          then specExtensions fs (joinPaths path "index") ResolveExtensions
          else NotResolved
      | inl _ => NotResolved
      end
  | r => r
  end.

(** The entry of a child that is not expanded: a directory has [children]
    set to [null], anything else has no [children]. *)
Definition unexpanded (getContentType : string -> string) (dir : string)
    (child : string * Stats) : Entry :=
  let (file, stats) := child in
  mkEntry (joinPaths dir file) (mtimeISO stats)
    (getContentType (joinPaths dir file)) (size stats) (getType stats)
    (if isDirectory stats then ChildrenNull else ChildrenAbsent).

(** ** Concrete file systems and worlds *)

Module Scenario.

Definition enoent : JsError := mkError "ENOENT" "no such file or directory".
Definition eacces : JsError := mkError "EACCES" "permission denied".

Definition aFile : Stats := mkStats RegularFile "2016-03-01T10:00:00.000Z" 120.
Definition aDirectory : Stats :=
  mkStats Directory "2016-03-01T10:00:00.000Z" 4096.

(** A file system given by tables; what is in no table does not exist. *)
Definition tableFS (nodes : list (string * (JsError + Stats)))
    (listings : list (string * list string))
    (manifests : list (string * ManifestRead)) : FS :=
  let node p :=
    match lookup p nodes with Some r => r | None => inl enoent end in
  mkFS node node
    (fun p => match lookup p listings with
              | Some files => inr files
              | None => inl enoent
              end)
    (fun p => match lookup p manifests with
              | Some m => m
              | None => ReadFailed enoent
              end).

(** [lib] is a directory next to [lib.js] and [lib.json]. *)
Definition fsBothExtensions : FS :=
  tableFS [("/pkg/lib", inr aDirectory); ("/pkg/lib.js", inr aFile);
           ("/pkg/lib.json", inr aFile)] [] [].

(** [lib] is a directory with an [index.js], next to [lib.js]. *)
Definition fsIndexBesideFile : FS :=
  tableFS [("/pkg/lib", inr aDirectory); ("/pkg/lib.js", inr aFile);
           ("/pkg/lib/index.js", inr aFile)] [] [].

(** There is no [foo]; [foo.js] is a directory with an [index.js]. *)
Definition fsDirectoryNamedJs : FS :=
  tableFS [("/pkg/foo.js", inr aDirectory);
           ("/pkg/foo.js/index.js", inr aFile)] [] [].

(** [lib/] holds [index.json] and nothing else. *)
Definition fsIndexJsonOnly : FS :=
  tableFS [("/pkg/lib", inr aDirectory); ("/pkg/lib/", inr aDirectory);
           ("/pkg/lib/index.json", inr aFile)] [] [].

(** [lib] cannot be examined; [lib.js] is a file. *)
Definition fsDenied : FS :=
  tableFS [("/pkg/lib", inl eacces); ("/pkg/lib.js", inr aFile)] [] [].

(** The cache directory of [name@1.0.0] with a directory [lib] that holds
    [a.js] and a directory [sub]. *)
Definition fsTree : FS :=
  tableFS
    [("/tmp/name-1.0.0/package.json", inr aFile);
     ("/tmp/name-1.0.0/lib", inr aDirectory);
     ("/tmp/name-1.0.0/lib/", inr aDirectory);
     ("/tmp/name-1.0.0/lib/a.js", inr aFile);
     ("/tmp/name-1.0.0/lib/sub", inr aDirectory);
     ("/tmp/name-1.0.0/lib/sub/b.js", inr aFile)]
    [("/tmp/name-1.0.0/lib", ["a.js"; "sub"]);
     ("/tmp/name-1.0.0/lib/", ["a.js"; "sub"]);
     ("/tmp/name-1.0.0/lib/sub", ["b.js"])]
    [].

(** Nothing on disk. *)
Definition fsEmpty : FS := tableFS [] [] [].

(** The cache directory of [name@1.0.0]: the manifest declares
    [lib/foo] as main, and [lib/foo.js] is there. *)
Definition fsMain : FS :=
  tableFS
    [("/tmp/name-1.0.0/package.json", inr aFile);
     ("/tmp/name-1.0.0/lib", inr aDirectory);
     ("/tmp/name-1.0.0/lib/foo.js", inr aFile)]
    []
    [("/tmp/name-1.0.0/package.json",
      Parsed [("name", JString "name"); ("version", JString "1.0.0");
              ("main", JString "lib/foo")])].

(** The manifest of the cache directory of [name@1.0.0] cannot be
    examined. *)
Definition fsManifestDenied : FS :=
  tableFS [("/tmp/name-1.0.0/package.json", inl eacces)] [] [].

Definition tarballOf (version : string) : VersionConfig :=
  mkVersionConfig
    ("https://registry.npmjs.org/name/-/name-" ++ version ++ ".tgz").

(** A registry that knows one package, [name]. *)
Definition registry (registryURL packageName : string) : RegistryAnswer :=
  if packageName =? "name" then
    RegistryResponse 200
      (Some (mkPackageInfo
               (Some [("1.0.0", tarballOf "1.0.0"); ("1.2.0", tarballOf "1.2.0");
                      ("2.0.0", tarballOf "2.0.0")])
               (Some [("latest", "2.0.0")])))
  else RegistryResponse 404 None.

(** Extraction puts a manifest and an [index.js] into the directory. *)
Definition extract (tarballURL dir : string) (fs : FS) : option JsError * FS :=
  let node (old : string -> JsError + Stats) p :=
    if (p =? joinPaths dir "package.json") || (p =? joinPaths dir "index.js")
    then inr aFile else old p in
  (None,
   mkFS (node (fs_stat fs)) (node (fs_lstat fs))
     (fun p => if p =? dir then inr ["package.json"; "index.js"]
               else fs_readdir fs p)
     (fun p => if p =? joinPaths dir "package.json"
               then Parsed [("name", JString "name"); ("main", JString "index.js")]
               else fs_readManifest fs p)).

Definition world : World :=
  mkWorld Instances.parsePackageURL Instances.createPackageURL
    Instances.getContentType Instances.maxSatisfyingVersion
    registry extract (fun _ _ => inr None) "/tmp" 64.

(** The options of the repository's own wrappers. *)
Definition wrapperOptions : Options :=
  mkOptions (Some "https://registry.npmjs.org") (Some "/bower.zip")
    (Some 60%Z) (Some true) None.

(** A request as the wrapper's [fromConnect] hands it over: the route
    prefix is cut from [url] and kept in [originalUrl]. *)
Definition routed (path : string) : Request :=
  mkRequest path ("/api/run/container/task" ++ path) None.

(** A request on an unmounted handler. *)
Definition direct (path : string) : Request := mkRequest path path None.

End Scenario.

(** ** Vocabulary of the further properties *)

(** The paths the resolver can answer for [file]: a candidate
    [file + ext], or a candidate of the index file of a candidate. *)
Definition answerable (file : string) (useIndex : bool) (f : string) : Prop :=
  (exists ext, In ext ResolveExtensions /\ f = file ++ ext)
  \/ (useIndex = true
      /\ exists ext ext',
           In ext ResolveExtensions /\ In ext' ResolveExtensions
           /\ f = joinPaths (file ++ ext) "index" ++ ext').


(** [stat] says that the path is a regular file. *)
Definition regularFile (fs : FS) (f : string) : Prop :=
  exists stats, fs_stat fs f = inr stats /\ isFile stats = true.

(** [stat] says that the path is absent, or that it is no regular file. *)
Definition noRegularFile (fs : FS) (f : string) : Prop :=
  match fs_stat fs f with
  | inl error => code error = "ENOENT"
  | inr stats => isFile stats = false
  end.

(** The shape of a tree built with a depth budget: what is no directory has
    no [children]; a directory has [children] set to [null] exactly when
    the budget is used up, and else an array of entries that keep the
    shape for the budget less one. *)
Fixpoint treeOK (depth : nat) (e : Entry) : Prop :=
  match entry_children e with
  | ChildrenAbsent => entry_type e <> "directory"
  | ChildrenNull => entry_type e = "directory" /\ depth = 0%nat
  | ChildrenArray entries =>
      entry_type e = "directory"
      /\ match depth with
         | O => False
         | S depth' => Forall (treeOK depth') entries
         end
  end.

(** The entry [e] describes the child [file] of the directory [name]: its
    path is [name/file] and the rest is read off the child's [lstat]. *)
Definition describes (getContentType : string -> string) (fs : FS)
    (baseDir name file : string) (e : Entry) : Prop :=
  exists stats children,
    getStats fs (joinPaths (joinPaths baseDir name) file) = inr stats
    /\ e = mkEntry (joinPaths name file) (mtimeISO stats)
             (getContentType (joinPaths name file)) (size stats)
             (getType stats) children.

(** ** Further file systems *)

Module Cases.

(** [lib/] lists [a.js] and [gone.js], and [gone.js] is not there any
    more. *)
Definition fsVanished : FS :=
  Scenario.tableFS
    [("/tmp/name-1.0.0/lib/", inr Scenario.aDirectory);
     ("/tmp/name-1.0.0/lib/a.js", inr Scenario.aFile)]
    [("/tmp/name-1.0.0/lib/", ["a.js"; "gone.js"])]
    [].

(** A cache directory under the name of the tag [latest]. *)
Definition fsTagDirectory : FS :=
  Scenario.tableFS
    [("/tmp/name-latest/package.json", inr Scenario.aFile);
     ("/tmp/name-latest/f.js", inr Scenario.aFile)]
    [] [].

(** The manifest declares an empty main, and [index.js] is there. *)
Definition fsEmptyMain : FS :=
  Scenario.tableFS
    [("/tmp/name-1.0.0/package.json", inr Scenario.aFile);
     ("/tmp/name-1.0.0/index.js", inr Scenario.aFile)]
    []
    [("/tmp/name-1.0.0/package.json", Parsed [("main", JString "")])].

Definition econnrefused : JsError :=
  mkError "ECONNREFUSED" "connect ECONNREFUSED".

(** The world of [Scenario.world] with a registry out of reach. *)
Definition worldOffline : World :=
  mkWorld Instances.parsePackageURL Instances.createPackageURL
    Instances.getContentType Instances.maxSatisfyingVersion
    (fun _ _ => RegistryFailed econnrefused) Scenario.extract
    (fun _ _ => inr None) "/tmp" 64.

(** The cache directory of [name@1.0.0]: the manifest declares [lib] as
    main; [lib] is a directory that holds [index.js], next to [lib.js] and
    [lib.json]. *)
Definition fsIndexBesideBoth : FS :=
  Scenario.tableFS
    [("/tmp/name-1.0.0/package.json", inr Scenario.aFile);
     ("/tmp/name-1.0.0/lib", inr Scenario.aDirectory);
     ("/tmp/name-1.0.0/lib/index.js", inr Scenario.aFile);
     ("/tmp/name-1.0.0/lib.js", inr Scenario.aFile);
     ("/tmp/name-1.0.0/lib.json", inr Scenario.aFile)]
    []
    [("/tmp/name-1.0.0/package.json", Parsed [("main", JString "lib")])].

(** The manifest's [browser] is an object. *)
Definition fsBrowserObject : FS :=
  Scenario.tableFS
    [("/tmp/name-1.0.0/package.json", inr Scenario.aFile);
     ("/tmp/name-1.0.0/index.js", inr Scenario.aFile)]
    []
    [("/tmp/name-1.0.0/package.json",
      Parsed [("main", JString "index.js"); ("browser", JObject)])].

(** A request on an unmounted handler, with the query [main=field]. *)
Definition withMain (path field : string) : Request :=
  mkRequest (path ++ "?main=" ++ field) (path ++ "?main=" ++ field)
    (Some [("main", field)]).

End Cases.

(** The events that stay on the local disk. *)
Definition isLocal (e : Event) : Prop :=
  match e with
  | EvRegistry _ _ | EvGetPackage _ _ => False
  | _ => True
  end.

(** What the handler answers from the registry's document alone, without
    touching the disk: an error, a NotFound, a redirect to another version
    of the same package, file and search, or a thrown TypeError. *)
Definition registryVerdict (w : World) (options : Options) (req : Request)
    (parsed : PackageURL) (r : Response) : Prop :=
  (exists error, r = sendServerError error)
  \/ (exists what, r = sendNotFoundError what)
  \/ (exists v,
        r = sendRedirect
              (baseUrl req
               ++ createPackageURL w (packageName parsed) v (filename parsed)
                    (search parsed))
              (redirectTTL options))
  \/ r = uncaughtTypeError.

(** The lifetimes and codes of the responses: files and listings are sent
    with a year, redirects with the configured TTL and to a location under
    the base URL, texts with status 500. *)
Definition responseOK (options : Options) (req : Request) (r : Response)
    : Prop :=
  match r with
  | sendFile _ maxAge | sendJSON _ maxAge => maxAge = 31536000%Z
  | sendRedirect location ttl =>
      ttl = redirectTTL options /\ exists rest, location = baseUrl req ++ rest
  | sendText status _ => status = 500%Z
  | _ => True
  end.

(** ** The route wrapper

    The wrapper of the handler for a hosted route: [fromConnect] keeps the
    URL as it came in [originalUrl] and cuts the route prefix from [url]
    with the expression of [createRouteNormalizationRx],
    [^/(?:api/run/)?[^/]+/(?:[^/?#]+/?)?]. *)

(** The longest prefix of characters that satisfy [p], and the rest. *)
Fixpoint span (p : ascii -> bool) (s : string) : string * string :=
  match s with
  | EmptyString => (EmptyString, EmptyString)
  | String c rest =>
      if p c then let (taken, more) := span p rest in (String c taken, more)
      else (EmptyString, s)
  end.

(** [s] without the prefix [p], when [p] is a prefix of [s]. *)
Fixpoint dropPrefix (p s : string) : option string :=
  match p, s with
  | EmptyString, _ => Some s
  | String a p', String b s' => if Ascii.eqb a b then dropPrefix p' s' else None
  | String _ _, EmptyString => None
  end.

(** [[^/]] *)
Definition containerChar (c : ascii) : bool := negb (Ascii.eqb c "/"%char).

(** [[^/?#]] *)
Definition taskChar (c : ascii) : bool :=
  negb (Ascii.eqb c "/"%char || Ascii.eqb c "?"%char || Ascii.eqb c "#"%char).

(** [[^/]+/]: a container and its slash; what is left after them. *)
Definition matchContainer (s : string) : option string :=
  let (container, more) := span containerChar s in
  if container =? "" then None
  else match more with
       | String "/"%char rest => Some rest
       | _ => None
       end.

(** [(?:[^/?#]+/?)?]: a named task and its slash if there are any; what is
    left after them. *)
Definition matchTask (s : string) : string :=
  let (task, more) := span taskChar s in
  if task =? "" then s
  else match more with
       | String "/"%char rest => rest
       | _ => more
       end.

(** The expression matched at the start of [url]: what is left after the
    match, if it matches.  The group [api/run/] is taken when the rest
    matches with it, and left out otherwise. *)
Definition normalizeRouteRx (url : string) : option string :=
  match url with
  | String "/"%char s =>
      let container :=
        match dropPrefix "api/run/" s with
        | Some s' =>
            match matchContainer s' with
            | Some more => Some more
            | None => matchContainer s
            end
        | None => matchContainer s
        end in
      match container with
      | Some more => Some (matchTask more)
      | None => None
      end
  | _ => None
  end.

(** [req.url.replace(normalizeRouteRx, '/')] *)
Definition normalizeRoute (url : string) : string :=
  match normalizeRouteRx url with
  | Some more => "/" ++ more
  | None => url
  end.

Definition fromConnect {R} (connectFn : Request -> R) (req : Request) : R :=
  connectFn (mkRequest (normalizeRoute (url req)) (url req) (query req)).

(** All characters of [s] satisfy [p]. *)
Fixpoint allChars (p : ascii -> bool) (s : string) : bool :=
  match s with
  | EmptyString => true
  | String c rest => p c && allChars p rest
  end.

(** * Properties *)

(** ** The writer monad *)

Lemma result_bind {A B} (m : IO A) (k : A -> IO B) :
  result (bind m k) = result (k (result m)).
Proof.
  unfold result, bind. destruct (k (fst m)); reflexivity.
Qed.

Lemma trace_bind {A B} (m : IO A) (k : A -> IO B) :
  trace (bind m k) = (trace m ++ trace (k (result m)))%list.
Proof.
  unfold trace, result, bind. destruct (k (fst m)); reflexivity.
Qed.

Lemma trace_ret {A} (a : A) : trace (ret a) = [].
Proof. reflexivity. Qed.

Lemma result_ret {A} (a : A) : result (ret a) = a.
Proof. reflexivity. Qed.

Lemma result_pair {A} (a : A) t : result (a, t) = a.
Proof. reflexivity. Qed.

Lemma trace_pair {A} (a : A) t : trace (a, t) = t.
Proof. reflexivity. Qed.

Lemma bind_pair {A B} (a : A) t (k : A -> IO B) :
  bind (a, t) k = (result (k a), (t ++ trace (k a))%list).
Proof. unfold bind, result, trace. simpl. destruct (k a); reflexivity. Qed.

Lemma io_eq {A} (m : IO A) : m = (result m, trace m).
Proof. destruct m; reflexivity. Qed.

Lemma bind_stat {B} fs path (k : JsError + Stats -> IO B) :
  bind (statFile fs path) k
  = (result (k (fs_stat fs path)), EvStat path :: trace (k (fs_stat fs path))).
Proof.
  unfold statFile, emit, ret, bind, result, trace; simpl.
  destruct (k (fs_stat fs path)); reflexivity.
Qed.

Lemma bind_emit {B} e (k : unit -> IO B) :
  bind (emit e) k = (result (k tt), e :: trace (k tt)).
Proof.
  unfold emit, bind, result, trace; simpl. destruct (k tt); reflexivity.
Qed.

(** ** The file resolver *)

(** One step of the chain, by what [stat] answers for the candidate. *)
Lemma tryExtensions_cons self fs file useIndex ext rest :
  tryExtensions self fs file useIndex (ext :: rest)
  = let k := fun r : JsError + Stats =>
      match r with
      | inr stats =>
          if isFile stats then ret (ResolvedFile (file ++ ext))
          else if useIndex && isDirectory stats then
            i <- self (joinPaths (file ++ ext) "index") false ;;
            match i with
            | ResolveError error => ret (ResolveError error)
            | ResolvedFile indexFile =>
                if truthy indexFile then ret (ResolvedFile indexFile)
                else tryExtensions self fs file useIndex rest
            | NotResolved => tryExtensions self fs file useIndex rest
            end
          else tryExtensions self fs file useIndex rest
      | inl error =>
          if negb (code error =? "ENOENT") then ret (ResolveError error)
          else tryExtensions self fs file useIndex rest
      end in
    (result (k (fs_stat fs (file ++ ext))),
     EvStat (file ++ ext) :: trace (k (fs_stat fs (file ++ ext)))).
Proof.
  cbv zeta. simpl tryExtensions. rewrite bind_stat. reflexivity.
Qed.

(** With the index fallback off the resolver does not call itself. *)
Lemma tryExtensions_noindex self1 self2 fs file exts :
  tryExtensions self1 fs file false exts = tryExtensions self2 fs file false exts.
Proof.
  induction exts as [|ext rest IH]; [reflexivity|].
  rewrite !tryExtensions_cons. cbv zeta.
  destruct (fs_stat fs (file ++ ext)) as [error|stats].
  - destruct (negb (code error =? "ENOENT")); [reflexivity|]. now rewrite IH.
  - destruct (isFile stats); [reflexivity|]. simpl. now rewrite IH.
Qed.

Lemma tryExtensions_self self1 self2 fs file useIndex exts :
  (forall f, self1 f false = self2 f false) ->
  tryExtensions self1 fs file useIndex exts
  = tryExtensions self2 fs file useIndex exts.
Proof.
  intros Hself. induction exts as [|ext rest IH]; [reflexivity|].
  rewrite !tryExtensions_cons. cbv zeta. rewrite Hself, IH. reflexivity.
Qed.

(** The recursion of the source: [resolveFile] runs the chain with itself
    as the resolver of index files. *)
Lemma resolveFile_unfold fs file useIndex :
  resolveFile fs file useIndex
  = tryExtensions (resolveFile fs) fs file useIndex ResolveExtensions.
Proof.
  unfold resolveFile at 1. apply tryExtensions_self.
  intros f. unfold resolveFile. apply tryExtensions_noindex.
Qed.

Lemma tryExtensions_passed self fs file useIndex pre rest :
  Forall (fun ext => passedOver useIndex (fs_stat fs (file ++ ext))) pre ->
  tryExtensions self fs file useIndex (pre ++ rest)
  = (result (tryExtensions self fs file useIndex rest),
     (candidates file pre ++ trace (tryExtensions self fs file useIndex rest))%list).
Proof.
  induction 1 as [|ext pre Hext _ IH]; [apply io_eq|].
  rewrite <- app_comm_cons, tryExtensions_cons. cbv zeta.
  destruct (fs_stat fs (file ++ ext)) as [error|stats]; simpl in Hext.
  - rewrite Hext. simpl. rewrite IH. reflexivity.
  - destruct Hext as [-> ->]. rewrite IH. reflexivity.
Qed.

Lemma tryExtensions_file self fs file useIndex ext rest stats :
  fs_stat fs (file ++ ext) = inr stats ->
  isFile stats = true ->
  tryExtensions self fs file useIndex (ext :: rest)
  = (ResolvedFile (file ++ ext), [EvStat (file ++ ext)]).
Proof.
  intros Hs Hf. rewrite tryExtensions_cons. cbv zeta. rewrite Hs, Hf. reflexivity.
Qed.

Lemma candidates_app file l1 l2 :
  candidates file (l1 ++ l2) = (candidates file l1 ++ candidates file l2)%list.
Proof. apply map_app. Qed.

Lemma isDirectory_not_file stats : isDirectory stats = true -> isFile stats = false.
Proof. unfold isDirectory, isFile. destruct (kind stats); congruence. Qed.

(** With the index fallback off, the resolver stats a prefix of the
    candidates and nothing else, and a file it answers is a candidate. *)
Lemma noindex_trace self fs file exts :
  exists n, trace (tryExtensions self fs file false exts)
            = candidates file (firstn n exts)
            /\ (exts <> [] -> n <> 0%nat).
Proof.
  induction exts as [|ext rest IH].
  - exists 0%nat. split; [reflexivity|congruence].
  - destruct IH as (n & Hn & _). rewrite tryExtensions_cons. cbv zeta.
    destruct (fs_stat fs (file ++ ext)) as [error|stats].
    + destruct (negb (code error =? "ENOENT")).
      * exists 1%nat. split; [reflexivity|congruence].
      * exists (S n). unfold trace at 1. simpl snd. rewrite Hn.
        split; [reflexivity|congruence].
    + destruct (isFile stats).
      * exists 1%nat. split; [reflexivity|congruence].
      * exists (S n). simpl andb. cbv iota. unfold trace at 1. simpl snd.
        rewrite Hn. split; [reflexivity|congruence].
Qed.

Lemma noindex_result self fs file exts f :
  result (tryExtensions self fs file false exts) = ResolvedFile f ->
  exists ext, In ext exts /\ f = file ++ ext.
Proof.
  induction exts as [|ext rest IH]; [discriminate|].
  rewrite tryExtensions_cons. cbv zeta.
  destruct (fs_stat fs (file ++ ext)) as [error|stats].
  - destruct (negb (code error =? "ENOENT")); [discriminate|].
    unfold result at 1. simpl fst. intros H. destruct (IH H) as (e & He & ->).
    exists e. split; [now right|reflexivity].
  - destruct (isFile stats).
    + unfold result, ret. simpl. intros [= <-]. exists ext. split; [now left|reflexivity].
    + simpl andb. cbv iota. unfold result at 1. simpl fst. intros H.
      destruct (IH H) as (e & He & ->). exists e. split; [now right|reflexivity].
Qed.

Lemma append_nonempty s t : s <> "" -> s ++ t <> "".
Proof. destruct s; [congruence|discriminate]. Qed.

Lemma normalize_nonempty p : Path.normalize p <> "".
Proof.
  unfold Path.normalize.
  destruct (p =? ""); [discriminate|]. cbv zeta.
  set (q := String.concat "/" _).
  destruct (q =? "") eqn:Hq.
  - destruct (isSlash (firstChar p)); [discriminate|].
    destruct (isSlash (lastChar p)); discriminate.
  - apply String.eqb_neq in Hq.
    destruct (isSlash (firstChar p)); [discriminate|].
    destruct (isSlash (lastChar p)); [now apply append_nonempty|assumption].
Qed.

Lemma joinPaths_nonempty a b : joinPaths a b <> "".
Proof.
  unfold joinPaths, Path.join.
  destruct (a =? ""); [destruct (b =? ""); [discriminate|]|destruct (b =? "")];
    apply normalize_nonempty.
Qed.

Lemma truthy_nonempty s : s <> "" -> truthy s = true.
Proof.
  intros H. unfold truthy. apply String.eqb_neq in H. now rewrite H.
Qed.

Lemma index_truthy fs dir f :
  result (resolveFile fs (joinPaths dir "index") false) = ResolvedFile f ->
  truthy f = true.
Proof.
  intros H. apply noindex_result in H. destruct H as (ext & _ & ->).
  apply truthy_nonempty, append_nonempty, joinPaths_nonempty.
Qed.

Lemma tryExtensions_failsFast self fs file useIndex exts :
  (forall f, failsFast fs (self f false)) ->
  failsFast fs (tryExtensions self fs file useIndex exts).
Proof.
  intros Hself. induction exts as [|ext rest IH]; intros p error Hin Hp Hcode.
  - destruct Hin.
  - revert Hin. rewrite tryExtensions_cons. cbv zeta.
    destruct (fs_stat fs (file ++ ext)) as [error0|stats] eqn:Hs.
    + destruct (negb (code error0 =? "ENOENT")) eqn:Hc.
      * unfold trace, result. simpl. intros [[= <-]|[]].
        rewrite Hs in Hp. injection Hp as <-.
        split; [reflexivity|]. now exists [].
      * apply negb_false_iff, String.eqb_eq in Hc.
        unfold trace at 1, result at 1. simpl fst; simpl snd.
        intros [[= <-]|Hin].
        { rewrite Hs in Hp. injection Hp as <-. contradiction. }
        destruct (IH p error Hin Hp Hcode) as (Hr & tr & Ht).
        split; [exact Hr|]. exists (EvStat (file ++ ext) :: tr).
        unfold trace at 1. simpl snd. now rewrite Ht.
    + assert (Hnext : In (EvStat p)
                        (EvStat (file ++ ext)
                         :: trace (tryExtensions self fs file useIndex rest)) ->
                      result (tryExtensions self fs file useIndex rest)
                      = ResolveError error
                      /\ exists tr,
                          EvStat (file ++ ext)
                          :: trace (tryExtensions self fs file useIndex rest)
                          = (tr ++ [EvStat p])%list).
      { intros [[= <-]|Hin]; [rewrite Hs in Hp; discriminate|].
        destruct (IH p error Hin Hp Hcode) as (Hr & tr & Ht).
        split; [exact Hr|]. exists (EvStat (file ++ ext) :: tr). now rewrite Ht. }
      destruct (isFile stats).
      * unfold trace, result. simpl. intros [[= <-]|[]].
        rewrite Hs in Hp. discriminate.
      * destruct (useIndex && isDirectory stats); [|exact Hnext].
        unfold trace at 1, result at 1. simpl fst; simpl snd.
        rewrite trace_bind, result_bind.
        set (inner := self (joinPaths (file ++ ext) "index") false).
        pose proof (Hself (joinPaths (file ++ ext) "index")) as Hinner.
        fold inner in Hinner.
        intros [[= <-]|Hin]; [rewrite Hs in Hp; discriminate|].
        apply in_app_or in Hin. destruct Hin as [Hin|Hin].
        { destruct (Hinner p error Hin Hp Hcode) as (Hr & tr & Ht).
          rewrite Hr. split; [reflexivity|].
          exists (EvStat (file ++ ext) :: tr). rewrite Ht.
          unfold trace, ret. simpl. now rewrite app_nil_r. }
        destruct (result inner) as [indexFile|error1|].
        { destruct (truthy indexFile); [destruct Hin|].
          destruct (IH p error Hin Hp Hcode) as (Hr & tr & Ht).
          split; [exact Hr|]. exists (EvStat (file ++ ext) :: trace inner ++ tr)%list.
          rewrite Ht. simpl. now rewrite app_assoc. }
        { destruct Hin. }
        { destruct (IH p error Hin Hp Hcode) as (Hr & tr & Ht).
          split; [exact Hr|]. exists (EvStat (file ++ ext) :: trace inner ++ tr)%list.
          rewrite Ht. simpl. now rewrite app_assoc. }
Qed.

Lemma resolveFile_failsFast fs file useIndex :
  failsFast fs (resolveFile fs file useIndex).
Proof.
  unfold resolveFile. apply tryExtensions_failsFast. intros f.
  apply tryExtensions_failsFast. intros g p error [].
Qed.

(** With the index fallback off the resolver is the extension chain of
    the specification. *)
Lemma noindex_spec self fs file exts :
  result (tryExtensions self fs file false exts) = specExtensions fs file exts.
Proof.
  induction exts as [|ext rest IH]; [reflexivity|].
  rewrite tryExtensions_cons. cbv zeta. rewrite result_pair. cbn [specExtensions].
  destruct (fs_stat fs (file ++ ext)) as [error|stats].
  - destruct (code error =? "ENOENT"); [exact IH|reflexivity].
  - destruct (isFile stats); [reflexivity|exact IH].
Qed.

(** C5, on the code.  [lib] is a directory that holds [index.js], and
    [lib.js] and [lib.json] are regular files.  With the index fallback on,
    as for the entry point of a package, the resolver goes into the
    directory first: it answers [lib/index.js] and examines neither
    [lib.js] nor [lib.json].  The first candidate that is a regular file,
    [lib.js], is not the answer; so a package whose main is [lib] is served
    as [lib/index.js]. *)
Theorem C5_index_answered_before_js :
  resolveFile Cases.fsIndexBesideBoth "/tmp/name-1.0.0/lib" true
  = (ResolvedFile "/tmp/name-1.0.0/lib/index.js",
     [EvStat "/tmp/name-1.0.0/lib"; EvStat "/tmp/name-1.0.0/lib/index";
      EvStat "/tmp/name-1.0.0/lib/index.js"])
  /\ fs_stat Cases.fsIndexBesideBoth ("/tmp/name-1.0.0/lib" ++ ".js")
     = inr Scenario.aFile
  /\ fs_stat Cases.fsIndexBesideBoth ("/tmp/name-1.0.0/lib" ++ ".json")
     = inr Scenario.aFile
  /\ specExtensions Cases.fsIndexBesideBoth "/tmp/name-1.0.0/lib"
       ResolveExtensions
     = ResolvedFile "/tmp/name-1.0.0/lib.js"
  /\ handleRequest Scenario.world Scenario.wrapperOptions
       Cases.fsIndexBesideBoth (Scenario.direct "/name@1.0.0")
     = (sendFile "/tmp/name-1.0.0/lib/index.js" OneYear,
        [EvStat "/tmp/name-1.0.0/package.json";
         EvReadFile "/tmp/name-1.0.0/package.json";
         EvStat "/tmp/name-1.0.0/lib"; EvStat "/tmp/name-1.0.0/lib/index";
         EvStat "/tmp/name-1.0.0/lib/index.js"]).
Proof.
  repeat split; vm_compute; reflexivity.
Qed.

(** C6, on the code.  [lib] is a directory holding [index.js], and [lib.js]
    is a regular file.  With the fallback on, the resolver goes into
    [lib/index] at once and answers [lib/index.js], without examining
    [lib.js]: the fallback fires though an extension candidate is a file,
    where the order of [require], which the resolver is documented to
    follow, answers [lib.js].  And with no [foo] but a directory [foo.js],
    the fallback fires though the literal path is no directory. *)
Theorem C6_index_fallback_fires_early :
  resolveFile Scenario.fsIndexBesideFile "/pkg/lib" true
  = (ResolvedFile "/pkg/lib/index.js",
     [EvStat "/pkg/lib"; EvStat "/pkg/lib/index"; EvStat "/pkg/lib/index.js"])
  /\ fs_stat Scenario.fsIndexBesideFile ("/pkg/lib" ++ ".js") = inr Scenario.aFile
  /\ specResolve Scenario.fsIndexBesideFile "/pkg/lib" true
     = ResolvedFile "/pkg/lib.js"
  /\ result (resolveFile Scenario.fsIndexBesideFile "/pkg/lib" true)
     <> specResolve Scenario.fsIndexBesideFile "/pkg/lib" true
  /\ fs_stat Scenario.fsDirectoryNamedJs "/pkg/foo" = inl Scenario.enoent
  /\ resolveFile Scenario.fsDirectoryNamedJs "/pkg/foo" true
     = (ResolvedFile "/pkg/foo.js/index.js",
        [EvStat "/pkg/foo"; EvStat "/pkg/foo.js"; EvStat "/pkg/foo.js/index";
         EvStat "/pkg/foo.js/index.js"])
  /\ specResolve Scenario.fsDirectoryNamedJs "/pkg/foo" true = NotResolved.
Proof.
  repeat split; try reflexivity. vm_compute. discriminate.
Qed.

(** C7. Whenever a [stat] of the resolver, on a candidate or on a candidate
    of an index file, fails with an error other than ENOENT, the resolver
    answers that error and that [stat] was its last: no candidate is tried
    after it, and the answer is not "nothing found". *)
Theorem C7_io_error_short_circuits fs file useIndex p error :
  In (EvStat p) (trace (resolveFile fs file useIndex)) ->
  fs_stat fs p = inl error ->
  code error <> "ENOENT" ->
  result (resolveFile fs file useIndex) = ResolveError error
  /\ result (resolveFile fs file useIndex) <> NotResolved
  /\ exists tr, trace (resolveFile fs file useIndex) = (tr ++ [EvStat p])%list.
Proof.
  intros Hin Hp Hcode.
  destruct (resolveFile_failsFast fs file useIndex p error Hin Hp Hcode)
    as (Hr & Ht).
  rewrite Hr. repeat split; [discriminate|exact Ht].
Qed.

(** The [stat] of [lib] is denied: the resolver answers that error and
    does not go on to [lib.js], which is a file. *)
Lemma C7_witness :
  result (resolveFile Scenario.fsDenied "/pkg/lib" false)
  = ResolveError Scenario.eacces
  /\ result (resolveFile Scenario.fsDenied "/pkg/lib" false) <> NotResolved
  /\ exists tr, trace (resolveFile Scenario.fsDenied "/pkg/lib" false)
                = (tr ++ [EvStat "/pkg/lib"])%list.
Proof.
  apply (C7_io_error_short_circuits Scenario.fsDenied "/pkg/lib" false
           "/pkg/lib" Scenario.eacces).
  - left. reflexivity.
  - reflexivity.
  - discriminate.
Defined.

(** ** The directory tree builder *)

Lemma promiseAll_unexpanded gct fs baseDir dir children :
  promiseAll
    (fun '(file, stats) =>
       resolveEntry gct (getEntries gct fs) baseDir (joinPaths dir file) stats 0)
    children
  = inr (map (unexpanded gct dir) children).
Proof.
  induction children as [|[file stats] rest IH]; [reflexivity|].
  cbn [promiseAll map]. rewrite IH.
  unfold resolveEntry, resolveDirectory, unexpanded.
  destruct (isDirectory stats); reflexivity.
Qed.

(** C2, as the code has it.  Building the tree of a directory with
    [maximumDepth = 0] lists the directory and answers the entries of its
    children, in listing order, not an entry of the directory itself.  A
    child that is a directory carries [children] set to [null], any other
    child carries no [children]; an expanded directory that is empty
    carries the empty array, so the three stay apart. *)
Theorem C2_depth_zero gct fs baseDir dir files statsArray :
  fs_readdir fs (joinPaths baseDir dir) = inr files ->
  promiseAll (fun file => getStats fs (joinPaths (joinPaths baseDir dir) file))
    files = inr statsArray ->
  generateDirectoryTree gct fs baseDir dir 0
  = inr (map (unexpanded gct dir) (combine files statsArray))
  /\ (forall path stats,
        resolveDirectory gct (getEntries gct fs) baseDir path stats 0
        = inr (mkEntry path (mtimeISO stats) (gct path) (size stats)
                 (getType stats) ChildrenNull))
  /\ (forall path stats depth,
        getEntries gct fs baseDir path depth = inr [] ->
        resolveDirectory gct (getEntries gct fs) baseDir path stats (S depth)
        = inr (mkEntry path (mtimeISO stats) (gct path) (size stats)
                 (getType stats) (ChildrenArray []))).
Proof.
  intros Hdir Hstats. repeat split.
  - unfold generateDirectoryTree. cbn [getEntries]. rewrite Hdir, Hstats.
    apply promiseAll_unexpanded.
  - intros path stats depth Hempty. unfold resolveDirectory. now rewrite Hempty.
Qed.

(** [lib/] holds [a.js] and the directory [sub]. *)
Lemma C2_witness :
  generateDirectoryTree Instances.getContentType Scenario.fsTree
    "/tmp/name-1.0.0" "/lib/" 0
  = inr [mkEntry "/lib/a.js" "2016-03-01T10:00:00.000Z" "application/javascript"
           120 "file" ChildrenAbsent;
         mkEntry "/lib/sub" "2016-03-01T10:00:00.000Z" "text/plain"
           4096 "directory" ChildrenNull].
Proof.
  destruct (C2_depth_zero Instances.getContentType Scenario.fsTree
              "/tmp/name-1.0.0" "/lib/" ["a.js"; "sub"]
              [Scenario.aFile; Scenario.aDirectory])
    as (Htree & _).
  - reflexivity.
  - reflexivity.
  - exact Htree.
Defined.

(** C2 as stated fails: [lib/] holds a file and a directory.  With
    [maximumDepth = 0] the builder answers two entries, those of the
    children, and no entry of [lib/] itself; the entry of the directory
    among them has [children] set to [null], which is not an absent
    [children]; and so has the entry that [resolveDirectory] makes of
    [lib/] itself at depth 0. *)
Lemma C2_counterexample :
  generateDirectoryTree Instances.getContentType Scenario.fsTree
    "/tmp/name-1.0.0" "/lib/" 0
  = inr [mkEntry "/lib/a.js" "2016-03-01T10:00:00.000Z" "application/javascript"
           120 "file" ChildrenAbsent;
         mkEntry "/lib/sub" "2016-03-01T10:00:00.000Z" "text/plain"
           4096 "directory" ChildrenNull]
  /\ ~ (exists e,
          generateDirectoryTree Instances.getContentType Scenario.fsTree
            "/tmp/name-1.0.0" "/lib/" 0 = inr [e]
          /\ entry_children e = ChildrenAbsent)
  /\ ~ (forall entries e,
          generateDirectoryTree Instances.getContentType Scenario.fsTree
            "/tmp/name-1.0.0" "/lib/" 0 = inr entries ->
          In e entries -> entry_type e = "directory" ->
          entry_children e = ChildrenAbsent)
  /\ resolveDirectory Instances.getContentType
       (getEntries Instances.getContentType Scenario.fsTree)
       "/tmp/name-1.0.0" "/lib/" Scenario.aDirectory 0
     = inr (mkEntry "/lib/" "2016-03-01T10:00:00.000Z" "text/plain" 4096
              "directory" ChildrenNull)
  /\ ChildrenNull <> ChildrenAbsent.
Proof.
  split; [reflexivity|split; [|split; [|split]]].
  - intros (e & He & _). vm_compute in He. discriminate.
  - intros H.
    specialize (H _ (mkEntry "/lib/sub" "2016-03-01T10:00:00.000Z" "text/plain"
                       4096 "directory" ChildrenNull) eq_refl).
    simpl in H. discriminate H; [right; left; reflexivity|reflexivity].
  - reflexivity.
  - discriminate.
Qed.

(** ** The request handler *)

Lemma checkLocalCache_eq fs dir :
  checkLocalCache fs dir
  = (match fs_stat fs (joinPaths dir "package.json") with
     | inr stats => isFile stats
     | inl _ => false
     end, [EvStat (joinPaths dir "package.json")]).
Proof. unfold checkLocalCache. rewrite bind_stat. reflexivity. Qed.

Lemma handleRequest_parsed w options fs req parsed :
  parsePackageURL w (url req) = Some parsed ->
  handleRequest w options fs req = handleParsed w options req parsed fs.
Proof. intros H. unfold handleRequest. now rewrite H. Qed.

Lemma handleParsed_cached w options req parsed fs :
  result (checkLocalCache fs (tarballDir w parsed)) = true ->
  handleParsed w options req parsed fs
  = (result (serveFile w options req parsed fs),
     EvStat (joinPaths (tarballDir w parsed) "package.json")
     :: trace (serveFile w options req parsed fs)).
Proof.
  unfold handleParsed. rewrite checkLocalCache_eq, bind_pair.
  unfold result at 1. simpl fst. intros ->. reflexivity.
Qed.

Lemma handleParsed_miss w options req parsed fs :
  result (checkLocalCache fs (tarballDir w parsed)) = false ->
  let after :=
    onPackageInfo w options req parsed fs
      (getPackageInfo w (registryURL options) (packageName parsed)) in
  handleParsed w options req parsed fs
  = (result after,
     EvStat (joinPaths (tarballDir w parsed) "package.json")
     :: EvRegistry (registryURL options) (packageName parsed)
     :: trace after).
Proof.
  unfold handleParsed. rewrite checkLocalCache_eq, bind_pair.
  unfold result at 1. simpl fst. intros ->. rewrite bind_emit. reflexivity.
Qed.

(** The resolver only examines files. *)
Lemma tryExtensions_stats self fs file useIndex exts :
  (forall f, Forall isStat (trace (self f false))) ->
  Forall isStat (trace (tryExtensions self fs file useIndex exts)).
Proof.
  intros Hself. induction exts as [|ext rest IH]; [constructor|].
  rewrite tryExtensions_cons. cbv zeta. unfold trace at 1. simpl snd.
  constructor; [exact I|].
  destruct (fs_stat fs (file ++ ext)) as [error|stats].
  - destruct (negb (code error =? "ENOENT")); [constructor|exact IH].
  - destruct (isFile stats); [constructor|].
    destruct (useIndex && isDirectory stats); [|exact IH].
    rewrite trace_bind. apply Forall_app. split; [apply Hself|].
    destruct (result (self (joinPaths (file ++ ext) "index") false)) as [f|e|].
    + destruct (truthy f); [constructor|exact IH].
    + constructor.
    + exact IH.
Qed.

Lemma resolveFile_stats fs file useIndex :
  Forall isStat (trace (resolveFile fs file useIndex)).
Proof.
  unfold resolveFile. apply tryExtensions_stats. intros f.
  apply tryExtensions_stats. intros g. constructor.
Qed.

(** Serving from the cache directory fetches nothing. *)
Lemma serveFile_no_fetch w options req parsed fs :
  Forall (fun e => ~ isFetch e) (trace (serveFile w options req parsed fs)).
Proof.
  assert (Hstat : forall t, Forall isStat t -> Forall (fun e => ~ isFetch e) t).
  { intros t. apply Forall_impl. intros [] H; simpl; tauto. }
  unfold serveFile.
  destruct (filename parsed =? bowerBundle options).
  { rewrite bind_emit. unfold trace at 1. simpl snd.
    constructor; [simpl; tauto|].
    destruct (createBowerPackage w fs (tarballDir w parsed)) as [e|[f|]];
      constructor. }
  destruct (truthy (filename parsed)).
  - cbv zeta. rewrite trace_bind. apply Forall_app. split.
    { apply Hstat, resolveFile_stats. }
    set (index := if autoIndex options then _ else _).
    assert (Hindex : Forall (fun e => ~ isFetch e) (trace index)).
    { unfold index. destruct (autoIndex options); [|constructor].
      rewrite bind_stat. unfold trace at 1. simpl snd.
      constructor; [simpl; tauto|].
      destruct (fs_stat fs _) as [e|stats]; [constructor|].
      destruct (isDirectory stats); [|constructor].
      destruct (negb _); [constructor|].
      rewrite bind_emit. unfold trace at 1. simpl snd.
      constructor; [simpl; tauto|].
      destruct (directoryTree _ _ _ _) as [[treeError|tree]|]; constructor. }
    destruct (result (resolveFile fs _ false)) as [f|e|].
    + destruct (truthy f); [constructor|exact Hindex].
    + constructor.
    + exact Hindex.
  - cbv zeta. rewrite bind_emit. unfold trace at 1. simpl snd.
    constructor; [simpl; tauto|].
    destruct (fs_readManifest fs _) as [e|msg|packageConfig]; try constructor.
    destruct (truthy _ && negb _); [constructor|].
    destruct (match lookup _ packageConfig with Some _ => _ | None => _ end);
      try constructor.
    rewrite trace_bind. apply Forall_app. split.
    { apply Hstat, resolveFile_stats. }
    destruct (result (resolveFile fs _ true)); constructor.
Qed.

(** What the handler does for a directory asked for without a trailing
    slash: it redirects to the base prefix and a slash, and builds no
    tree. *)
Lemma directory_redirect_target w options req parsed fs stats :
  (filename parsed =? bowerBundle options) = false ->
  truthy (filename parsed) = true ->
  result (resolveFile fs (joinPaths (tarballDir w parsed) (filename parsed)) false)
  = NotResolved ->
  autoIndex options = true ->
  fs_stat fs (joinPaths (tarballDir w parsed) (filename parsed)) = inr stats ->
  isDirectory stats = true ->
  isSlash (lastChar (url req)) = false ->
  result (serveFile w options req parsed fs)
  = sendRedirect (baseUrl req ++ "/") (redirectTTL options)
  /\ Forall isStat (trace (serveFile w options req parsed fs)).
Proof.
  intros Hbower Hname Hres Hauto Hstat Hdir Hslash.
  unfold serveFile. rewrite Hbower, Hname. cbv zeta.
  rewrite result_bind, trace_bind, Hres, Hauto, bind_stat, Hstat, Hdir, Hslash.
  split; [reflexivity|].
  apply Forall_app. split; [apply resolveFile_stats|].
  unfold trace. simpl. repeat constructor.
Qed.

(** C1, on the code.  The package [name@1.0.0] is on disk and [lib] is a
    directory in it.  Asked for [/name@1.0.0/lib] under a route prefix, the
    handler redirects to the prefix and a slash: the package and the
    filename are gone from the target, which is not the requested URL with
    a slash appended.  No tree is built. *)
Theorem C1_redirect_drops_path :
  handleRequest Scenario.world Scenario.wrapperOptions Scenario.fsTree
    (Scenario.routed "/name@1.0.0/lib")
  = (sendRedirect "/api/run/container/task/" 60,
     [EvStat "/tmp/name-1.0.0/package.json"; EvStat "/tmp/name-1.0.0/lib";
      EvStat "/tmp/name-1.0.0/lib.js"; EvStat "/tmp/name-1.0.0/lib.json";
      EvStat "/tmp/name-1.0.0/lib"])
  /\ originalUrl (Scenario.routed "/name@1.0.0/lib") ++ "/"
     = "/api/run/container/task/name@1.0.0/lib/"
  /\ handleRequest Scenario.world Scenario.wrapperOptions Scenario.fsTree
       (Scenario.direct "/name@1.0.0/lib")
     = (sendRedirect "/" 60,
        [EvStat "/tmp/name-1.0.0/package.json"; EvStat "/tmp/name-1.0.0/lib";
         EvStat "/tmp/name-1.0.0/lib.js"; EvStat "/tmp/name-1.0.0/lib.json";
         EvStat "/tmp/name-1.0.0/lib"]).
Proof.
  repeat split; vm_compute; reflexivity.
Qed.

(** C3 as stated fails: nothing is on disk and [latest] is a tag of
    [name].  The first thing the handler does is the cache lookup, on the
    directory named after the tag; the registry is asked only after it.
    No exact version of [name] yields that directory. *)
Lemma C3_counterexample :
  handleRequest Scenario.world Scenario.wrapperOptions Scenario.fsEmpty
    (Scenario.direct "/name@latest/f.js")
  = (sendRedirect "/name@2.0.0/f.js" 60,
     [EvStat "/tmp/name-latest/package.json";
      EvRegistry "https://registry.npmjs.org" "name"])
  /\ ~ (exists v,
          In v ["1.0.0"; "1.2.0"; "2.0.0"]
          /\ joinPaths (joinPaths "/tmp" ("name" ++ "-" ++ v)) "package.json"
             = "/tmp/name-latest/package.json").
Proof.
  split; [vm_compute; reflexivity|].
  intros (v & [<-|[<-|[<-|[]]]] & H); vm_compute in H; discriminate.
Qed.

(** C3, as the code has it.  The cache directory is named after the package
    and the version token as the request gives it, and the cache lookup on
    it is the first thing the handler does, before any registry lookup.
    When the cache misses and the token is no key of the registry's
    versions, nothing is fetched and no file is touched.  A tarball is
    fetched only into that directory and only for a token that is a key of
    the versions. *)
Theorem C3_cache_lookup_uses_token w options fs req parsed :
  parsePackageURL w (url req) = Some parsed ->
  let dir := joinPaths (TmpDir w) (packageName parsed ++ "-" ++ version parsed) in
  let manifest := joinPaths dir "package.json" in
  let run := handleRequest w options fs req in
  (exists rest, trace run = EvStat manifest :: rest)
  /\ (result (checkLocalCache fs dir) = false ->
      forall status info vs,
        getPackageInfo w (registryURL options) (packageName parsed)
        = RegistryResponse status (Some info) ->
        versions info = Some vs ->
        lookup (version parsed) vs = None ->
        trace run
        = [EvStat manifest; EvRegistry (registryURL options) (packageName parsed)])
  /\ (forall tarballURL d,
        In (EvGetPackage tarballURL d) (trace run) ->
        d = dir
        /\ exists status info vs packageConfig,
             getPackageInfo w (registryURL options) (packageName parsed)
             = RegistryResponse status (Some info)
             /\ versions info = Some vs
             /\ lookup (version parsed) vs = Some packageConfig
             /\ dist_tarball packageConfig = tarballURL).
Proof.
  intros Hparse dir manifest run. unfold run.
  rewrite (handleRequest_parsed _ _ _ _ _ Hparse). fold (tarballDir w parsed) in dir.
  destruct (result (checkLocalCache fs dir)) eqn:Hcache.
  - rewrite (handleParsed_cached _ _ _ _ _ Hcache). unfold trace at 1 2. simpl snd.
    split; [eexists; reflexivity|]. split; [discriminate|].
    intros tarballURL d [H|H]; [discriminate|]. exfalso.
    pose proof (serveFile_no_fetch w options req parsed fs) as Hno.
    rewrite Forall_forall in Hno. exact (Hno _ H I).
  - rewrite (handleParsed_miss _ _ _ _ _ Hcache). cbv zeta.
    unfold trace at 1 2 4. simpl snd.
    split; [eexists; reflexivity|]. split.
    + intros _ status info vs Hinfo Hvs Hlook. rewrite Hinfo.
      unfold onPackageInfo. rewrite Hvs, Hlook.
      destruct (status =? 404)%Z; [reflexivity|].
      destruct (inherited (version parsed)); [reflexivity|].
      destruct (dist_tags info) as [tags|]; [|reflexivity].
      destruct (lookup (version parsed) tags); [reflexivity|].
      destruct (maxSatisfyingVersion w (keys vs) (version parsed)) as [v|];
        [destruct (truthy v)|]; reflexivity.
    + intros tarballURL d [H|[H|H]]; [discriminate|discriminate|].
      revert H. unfold onPackageInfo.
      destruct (getPackageInfo w (registryURL options) (packageName parsed))
        as [error|status [info|]]; try (intros []).
      * destruct (status =? 404)%Z; [intros []|].
        destruct (versions info) as [vs|] eqn:Hvs; [|intros []].
        destruct (lookup (version parsed) vs) as [packageConfig|] eqn:Hlook.
        { rewrite bind_emit. unfold trace at 1. simpl snd. intros [H|H].
          - injection H as <- <-. split; [reflexivity|].
            exists status, info, vs, packageConfig. repeat split; assumption.
          - exfalso. revert H.
            destruct (getPackage w (dist_tarball packageConfig)
                        (tarballDir w parsed) fs) as [[error|] fs'];
              [intros []|].
            intros H.
            pose proof (serveFile_no_fetch w options req parsed fs') as Hno.
            rewrite Forall_forall in Hno. exact (Hno _ H I). }
        destruct (inherited (version parsed)); [intros []|].
        destruct (dist_tags info) as [tags|]; [|intros []].
        destruct (lookup (version parsed) tags); [intros []|].
        destruct (maxSatisfyingVersion w (keys vs) (version parsed)) as [v|];
          [destruct (truthy v)|]; intros [].
      * destruct (status =? 404)%Z; intros [].
Qed.

(** A range token on an empty disk: the cache lookup on the directory
    named after the range, the registry lookup, and nothing else. *)
Lemma C3_witness :
  trace (handleRequest Scenario.world Scenario.wrapperOptions Scenario.fsEmpty
           (Scenario.direct "/name@^1/f.js"))
  = [EvStat "/tmp/name-^1/package.json";
     EvRegistry "https://registry.npmjs.org" "name"].
Proof.
  destruct (C3_cache_lookup_uses_token Scenario.world Scenario.wrapperOptions
              Scenario.fsEmpty (Scenario.direct "/name@^1/f.js")
              (mkPackageURL "name" "^1" "/f.js" "") eq_refl)
    as (_ & Hmiss & _).
  exact (Hmiss eq_refl 200%Z _ _ eq_refl eq_refl eq_refl).
Defined.

(** C4, on the code.  Nothing is on disk; the registry knows the versions
    1.0.0, 1.2.0 and 2.0.0 of [name] and the tag [latest].  The token
    [constructor] is no key of the versions, no key of the dist-tags and no
    range that a version satisfies, so the order of the rules ends in
    NotFound.  But [constructor] is a property that the versions object
    inherits: the handler takes the token for a version, finds no [dist]
    in what it reads there, and throws. *)
Theorem C4_inherited_token_taken_for_version :
  handleRequest Scenario.world Scenario.wrapperOptions Scenario.fsEmpty
    (Scenario.direct "/name@constructor/f.js")
  = (uncaughtTypeError,
     [EvStat "/tmp/name-constructor/package.json";
      EvRegistry "https://registry.npmjs.org" "name"])
  /\ Scenario.registry "https://registry.npmjs.org" "name"
     = RegistryResponse 200
         (Some (mkPackageInfo
                  (Some [("1.0.0", Scenario.tarballOf "1.0.0");
                         ("1.2.0", Scenario.tarballOf "1.2.0");
                         ("2.0.0", Scenario.tarballOf "2.0.0")])
                  (Some [("latest", "2.0.0")])))
  /\ lookup "constructor"
       [("1.0.0", Scenario.tarballOf "1.0.0");
        ("1.2.0", Scenario.tarballOf "1.2.0");
        ("2.0.0", Scenario.tarballOf "2.0.0")] = None
  /\ lookup "constructor" [("latest", "2.0.0")] = None
  /\ Instances.maxSatisfyingVersion ["1.0.0"; "1.2.0"; "2.0.0"] "constructor"
     = None.
Proof.
  repeat split; vm_compute; reflexivity.
Qed.

(** C8, on the code.  The package [name@1.0.0] is on disk.  Asked for the
    entry point with the override [main=toString], a field that the
    manifest lacks, the handler does not answer NotFound: [toString] is a
    property that the manifest object inherits, its value is no path, and
    the handler throws.  It throws as well for the override
    [main=browser] when the manifest's [browser] is an object. *)
Theorem C8_override_without_path_throws :
  handleRequest Scenario.world Scenario.wrapperOptions Scenario.fsMain
    (Cases.withMain "/name@1.0.0" "toString")
  = (uncaughtTypeError,
     [EvStat "/tmp/name-1.0.0/package.json";
      EvReadFile "/tmp/name-1.0.0/package.json"])
  /\ fs_readManifest Scenario.fsMain "/tmp/name-1.0.0/package.json"
     = Parsed [("name", JString "name"); ("version", JString "1.0.0");
               ("main", JString "lib/foo")]
  /\ lookup "toString"
       [("name", JString "name"); ("version", JString "1.0.0");
        ("main", JString "lib/foo")] = None
  /\ handleRequest Scenario.world Scenario.wrapperOptions Cases.fsBrowserObject
       (Cases.withMain "/name@1.0.0" "browser")
     = (uncaughtTypeError,
        [EvStat "/tmp/name-1.0.0/package.json";
         EvReadFile "/tmp/name-1.0.0/package.json"])
  /\ fs_readManifest Cases.fsBrowserObject "/tmp/name-1.0.0/package.json"
     = Parsed [("main", JString "index.js"); ("browser", JObject)].
Proof.
  repeat split; vm_compute; reflexivity.
Qed.

(** Every NotFound of the handler names its subject. *)
Lemma serveFile_not_found w options req parsed fs what :
  result (serveFile w options req parsed fs) = sendNotFoundError what ->
  namesSubject parsed what.
Proof.
  unfold serveFile, namesSubject.
  destruct (filename parsed =? bowerBundle options).
  { rewrite bind_emit, result_pair.
    destruct (createBowerPackage w fs (tarballDir w parsed)) as [e|[f|]];
      rewrite result_ret; intros H; try discriminate H.
    injection H as <-. right; right; right; left. reflexivity. }
  destruct (truthy (filename parsed)).
  - cbv zeta. rewrite result_bind.
    set (index := if autoIndex options then _ else _).
    assert (Hindex : result index = sendNotFoundError what ->
                     what = fileNotFound parsed).
    { unfold index. destruct (autoIndex options).
      - rewrite bind_stat, result_pair.
        destruct (fs_stat fs _) as [e|stats].
        + rewrite result_ret. now intros [= <-].
        + destruct (isDirectory stats); [|rewrite result_ret; now intros [= <-]].
          destruct (negb _); [rewrite result_ret; discriminate|].
          rewrite bind_emit, result_pair.
          destruct (directoryTree _ _ _ _) as [[treeError|tree]|]; rewrite result_ret;
            discriminate.
      - rewrite result_ret. now intros [= <-]. }
    destruct (result (resolveFile fs _ false)) as [f|e|].
    + destruct (truthy f); [rewrite result_ret; discriminate|].
      intros H. right; right; left. exact (Hindex H).
    + rewrite result_ret. discriminate.
    + intros H. right; right; left. exact (Hindex H).
  - cbv zeta. rewrite bind_emit, result_pair.
    destruct (fs_readManifest fs _) as [e|msg|packageConfig];
      try (rewrite result_ret; discriminate).
    destruct (truthy _ && negb _).
    { rewrite result_ret. intros [= <-].
      right; right; right; right; left. eexists. reflexivity. }
    destruct (match lookup _ packageConfig with Some _ => _ | None => _ end)
      as [main| | | | |]; try (rewrite result_ret; discriminate).
    rewrite result_bind.
    destruct (result (resolveFile fs _ true)); rewrite result_ret;
      try discriminate.
    intros [= <-]. right; right; right; right; right. eexists. reflexivity.
Qed.

Lemma onPackageInfo_not_found w options req parsed fs answer what :
  result (onPackageInfo w options req parsed fs answer) = sendNotFoundError what ->
  namesSubject parsed what.
Proof.
  unfold onPackageInfo.
  destruct answer as [error|status jsonData]; [rewrite result_ret; discriminate|].
  destruct (status =? 404)%Z.
  { rewrite result_ret. intros [= <-]. left. reflexivity. }
  destruct jsonData as [info|]; [|rewrite result_ret; discriminate].
  destruct (versions info) as [vs|]; [|rewrite result_ret; discriminate].
  destruct (lookup (version parsed) vs) as [packageConfig|].
  { rewrite bind_emit, result_pair.
    destruct (getPackage w _ _ fs) as [[error|] fs'];
      [rewrite result_ret; discriminate|apply serveFile_not_found]. }
  destruct (inherited (version parsed)); [rewrite result_ret; discriminate|].
  destruct (dist_tags info) as [tags|]; [|rewrite result_ret; discriminate].
  destruct (lookup (version parsed) tags); [rewrite result_ret; discriminate|].
  destruct (maxSatisfyingVersion w (keys vs) (version parsed)) as [v|].
  - destruct (truthy v); rewrite result_ret; [discriminate|].
    intros [= <-]. right; left. reflexivity.
  - rewrite result_ret. intros [= <-]. right; left. reflexivity.
Qed.

Lemma handleParsed_not_found w options req parsed fs what :
  result (handleParsed w options req parsed fs) = sendNotFoundError what ->
  namesSubject parsed what.
Proof.
  destruct (result (checkLocalCache fs (tarballDir w parsed))) eqn:Hcache.
  - rewrite (handleParsed_cached _ _ _ _ _ Hcache), result_pair.
    apply serveFile_not_found.
  - rewrite (handleParsed_miss _ _ _ _ _ Hcache). cbv zeta. rewrite result_pair.
    apply onPackageInfo_not_found.
Qed.

(** C9, on the code.  Nothing is on disk; the registry knows the versions
    1.0.0, 1.2.0 and 2.0.0 of [name] and the tag [latest].  The token
    [toString] is no version, no tag and no range that a version
    satisfies, yet the handler does not answer NotFound naming
    [name@toString]: [toString] is a property that the versions object
    inherits, the handler takes the token for a version, and it throws. *)
Theorem C9_inherited_token_not_answered :
  handleRequest Scenario.world Scenario.wrapperOptions Scenario.fsEmpty
    (Scenario.direct "/name@toString/f.js")
  = (uncaughtTypeError,
     [EvStat "/tmp/name-toString/package.json";
      EvRegistry "https://registry.npmjs.org" "name"])
  /\ result (handleRequest Scenario.world Scenario.wrapperOptions
               Scenario.fsEmpty (Scenario.direct "/name@toString/f.js"))
     <> sendNotFoundError "package name@toString"
  /\ lookup "toString"
       [("1.0.0", Scenario.tarballOf "1.0.0");
        ("1.2.0", Scenario.tarballOf "1.2.0");
        ("2.0.0", Scenario.tarballOf "2.0.0")] = None
  /\ lookup "toString" [("latest", "2.0.0")] = None
  /\ Instances.maxSatisfyingVersion ["1.0.0"; "1.2.0"; "2.0.0"] "toString"
     = None.
Proof.
  repeat split; try (vm_compute; reflexivity). vm_compute. discriminate.
Qed.

(** C10. The cache gate has no error to hand on: whatever error the [stat]
    of the manifest fails with, the gate answers "not cached"; the handler
    then asks the registry, and its response is the one of the registry
    path, not a server error for the failed [stat]. *)
Theorem C10_cache_gate_swallows_errors fs dir error :
  fs_stat fs (joinPaths dir "package.json") = inl error ->
  checkLocalCache fs dir = (false, [EvStat (joinPaths dir "package.json")])
  /\ forall w options req parsed,
       parsePackageURL w (url req) = Some parsed ->
       tarballDir w parsed = dir ->
       let after :=
         onPackageInfo w options req parsed fs
           (getPackageInfo w (registryURL options) (packageName parsed)) in
       handleRequest w options fs req
       = (result after,
          EvStat (joinPaths dir "package.json")
          :: EvRegistry (registryURL options) (packageName parsed)
          :: trace after).
Proof.
  intros Hstat.
  assert (Hgate : checkLocalCache fs dir
                  = (false, [EvStat (joinPaths dir "package.json")])).
  { rewrite checkLocalCache_eq, Hstat. reflexivity. }
  split; [exact Hgate|].
  intros w options req parsed Hparse <-.
  rewrite (handleRequest_parsed _ _ _ _ _ Hparse).
  apply handleParsed_miss. now rewrite Hgate.
Qed.

(** The [stat] of the manifest is denied: the gate answers "not cached",
    and the handler fetches the package again and serves from it. *)
Lemma C10_witness :
  checkLocalCache Scenario.fsManifestDenied "/tmp/name-1.0.0"
  = (false, [EvStat "/tmp/name-1.0.0/package.json"])
  /\ handleRequest Scenario.world Scenario.wrapperOptions
       Scenario.fsManifestDenied (Scenario.direct "/name@1.0.0/index.js")
     = (sendFile "/tmp/name-1.0.0/index.js" OneYear,
        [EvStat "/tmp/name-1.0.0/package.json";
         EvRegistry "https://registry.npmjs.org" "name";
         EvGetPackage "https://registry.npmjs.org/name/-/name-1.0.0.tgz"
           "/tmp/name-1.0.0";
         EvStat "/tmp/name-1.0.0/index.js"]).
Proof.
  destruct (C10_cache_gate_swallows_errors Scenario.fsManifestDenied
              "/tmp/name-1.0.0" Scenario.eacces eq_refl)
    as (Hgate & Hhandler).
  split; [exact Hgate|].
  exact (Hhandler Scenario.world Scenario.wrapperOptions
           (Scenario.direct "/name@1.0.0/index.js")
           (mkPackageURL "name" "1.0.0" "/index.js" "") eq_refl eq_refl).
Defined.

(** * Further properties *)

(** ** The file resolver *)

Lemma tryExtensions_sound self fs file useIndex exts f :
  (forall g h, result (self g false) = ResolvedFile h -> regularFile fs h) ->
  result (tryExtensions self fs file useIndex exts) = ResolvedFile f ->
  regularFile fs f.
Proof.
  intros Hself. induction exts as [|ext rest IH]; [discriminate|].
  rewrite tryExtensions_cons. cbv zeta. rewrite result_pair.
  destruct (fs_stat fs (file ++ ext)) as [error|stats] eqn:Hs.
  - destruct (negb (code error =? "ENOENT")); [discriminate|exact IH].
  - destruct (isFile stats) eqn:Hf.
    + rewrite result_ret. intros [= <-]. now exists stats.
    + destruct (useIndex && isDirectory stats); [|exact IH].
      rewrite result_bind.
      destruct (result (self (joinPaths (file ++ ext) "index") false))
        as [h|e|] eqn:Hi.
      * destruct (truthy h); [|exact IH].
        rewrite result_ret. intros [= <-]. exact (Hself _ _ Hi).
      * discriminate.
      * exact IH.
Qed.

Lemma tryExtensions_answerable self fs file useIndex exts f :
  (forall g h, result (self g false) = ResolvedFile h ->
               exists ext', In ext' ResolveExtensions /\ h = g ++ ext') ->
  result (tryExtensions self fs file useIndex exts) = ResolvedFile f ->
  (exists ext, In ext exts /\ f = file ++ ext)
  \/ (useIndex = true
      /\ exists ext ext',
           In ext exts /\ In ext' ResolveExtensions
           /\ f = joinPaths (file ++ ext) "index" ++ ext').
Proof.
  intros Hself. induction exts as [|ext rest IH]; [discriminate|].
  assert (Hlater :
    result (tryExtensions self fs file useIndex rest) = ResolvedFile f ->
    (exists ext0, In ext0 (ext :: rest) /\ f = file ++ ext0)
    \/ (useIndex = true
        /\ exists ext0 ext',
             In ext0 (ext :: rest) /\ In ext' ResolveExtensions
             /\ f = joinPaths (file ++ ext0) "index" ++ ext')).
  { intros H. destruct (IH H) as [(e & He & ->)|(Hu & e & e' & He & He' & ->)].
    - left. exists e. split; [now right|reflexivity].
    - right. split; [exact Hu|]. exists e, e'. repeat split; [now right|exact He']. }
  rewrite tryExtensions_cons. cbv zeta. rewrite result_pair.
  destruct (fs_stat fs (file ++ ext)) as [error|stats].
  - destruct (negb (code error =? "ENOENT")); [discriminate|exact Hlater].
  - destruct (isFile stats).
    + rewrite result_ret. intros [= <-]. left. exists ext.
      split; [now left|reflexivity].
    + destruct useIndex; [|exact Hlater].
      destruct (isDirectory stats); [|exact Hlater]. cbn [andb].
      rewrite result_bind.
      destruct (result (self (joinPaths (file ++ ext) "index") false))
        as [h|e|] eqn:Hi.
      * destruct (truthy h); [|exact Hlater].
        rewrite result_ret. intros [= <-].
        destruct (Hself _ _ Hi) as (e' & He' & ->).
        right. split; [reflexivity|]. exists ext, e'.
        repeat split; [now left|exact He'].
      * discriminate.
      * exact Hlater.
Qed.

Lemma resolveFile_regular fs file useIndex f :
  result (resolveFile fs file useIndex) = ResolvedFile f -> regularFile fs f.
Proof.
  unfold resolveFile. apply tryExtensions_sound.
  intros g h. apply tryExtensions_sound. discriminate.
Qed.

Lemma resolveFile_answerable fs file useIndex f :
  result (resolveFile fs file useIndex) = ResolvedFile f ->
  answerable file useIndex f.
Proof.
  unfold resolveFile. apply tryExtensions_answerable.
  intros g h Hh. apply noindex_result in Hh. exact Hh.
Qed.

(** X1. A path that the resolver answers is a regular file by [stat], and
    it is one of the candidates: [file + ext], or, with the index fallback
    on, [index + ext'] inside a candidate. *)
Theorem resolveFile_answers_regular_candidate fs file useIndex f :
  result (resolveFile fs file useIndex) = ResolvedFile f ->
  regularFile fs f /\ answerable file useIndex f.
Proof.
  intros H. split.
  - exact (resolveFile_regular fs file useIndex f H).
  - exact (resolveFile_answerable fs file useIndex f H).
Qed.

(** [lib] is a directory that holds [index.js]: the answer is the index
    file, a regular file. *)
Lemma resolveFile_answers_regular_candidate_witness :
  regularFile Scenario.fsIndexBesideFile "/pkg/lib/index.js"
  /\ answerable "/pkg/lib" true "/pkg/lib/index.js".
Proof.
  apply (resolveFile_answers_regular_candidate Scenario.fsIndexBesideFile
           "/pkg/lib" true "/pkg/lib/index.js").
  reflexivity.
Defined.

Lemma tryExtensions_none self fs file useIndex exts :
  result (tryExtensions self fs file useIndex exts) = NotResolved ->
  Forall (fun ext => noRegularFile fs (file ++ ext)) exts.
Proof.
  induction exts as [|ext rest IH]; [constructor|].
  rewrite tryExtensions_cons. cbv zeta. rewrite result_pair.
  unfold noRegularFile at 1.
  destruct (fs_stat fs (file ++ ext)) as [error|stats] eqn:Hs.
  - destruct (code error =? "ENOENT") eqn:Hc; [|discriminate].
    cbn [negb]. intros H. constructor; [|exact (IH H)].
    unfold noRegularFile. rewrite Hs. now apply String.eqb_eq.
  - destruct (isFile stats) eqn:Hf; [discriminate|].
    assert (Hlater :
      result (tryExtensions self fs file useIndex rest) = NotResolved ->
      Forall (fun ext0 => noRegularFile fs (file ++ ext0)) (ext :: rest)).
    { intros H. constructor; [|exact (IH H)].
      unfold noRegularFile. now rewrite Hs. }
    destruct (useIndex && isDirectory stats); [|exact Hlater].
    rewrite result_bind.
    destruct (result (self (joinPaths (file ++ ext) "index") false)) as [h|e|].
    + destruct (truthy h); [discriminate|exact Hlater].
    + discriminate.
    + exact Hlater.
Qed.

(** X2. When the resolver finds nothing, none of [file], [file + ".js"],
    [file + ".json"] is a regular file, and no [stat] it made failed with
    anything but ENOENT. *)
Theorem resolveFile_nothing_found fs file useIndex :
  result (resolveFile fs file useIndex) = NotResolved ->
  Forall (fun ext => noRegularFile fs (file ++ ext)) ResolveExtensions
  /\ forall p error,
       In (EvStat p) (trace (resolveFile fs file useIndex)) ->
       fs_stat fs p = inl error -> code error = "ENOENT".
Proof.
  intros H. split.
  - revert H. unfold resolveFile. apply tryExtensions_none.
  - intros p error Hin Hp.
    destruct (String.eqb_spec (code error) "ENOENT") as [Hc|Hc]; [exact Hc|].
    destruct (resolveFile_failsFast fs file useIndex p error Hin Hp Hc) as (Hr & _).
    rewrite H in Hr. discriminate.
Qed.

(** Nothing is on disk. *)
Lemma resolveFile_nothing_found_witness :
  Forall (fun ext => noRegularFile Scenario.fsEmpty ("/pkg/lib" ++ ext))
    ResolveExtensions
  /\ forall p error,
       In (EvStat p) (trace (resolveFile Scenario.fsEmpty "/pkg/lib" true)) ->
       fs_stat Scenario.fsEmpty p = inl error -> code error = "ENOENT".
Proof.
  apply (resolveFile_nothing_found Scenario.fsEmpty "/pkg/lib" true).
  reflexivity.
Defined.

Lemma tryExtensions_stat_count self fs file useIndex exts k :
  (forall g, length (trace (self g false)) <= k) ->
  length (trace (tryExtensions self fs file useIndex exts))
  <= length exts * S k.
Proof.
  intros Hself. induction exts as [|ext rest IH]; [apply Nat.le_refl|].
  rewrite tryExtensions_cons. cbv zeta. rewrite trace_pair.
  cbn [length]. 
  assert (Hlater :
    S (length (trace (tryExtensions self fs file useIndex rest)))
    <= S (length rest) * S k) by (cbn [Nat.mul]; lia).
  destruct (fs_stat fs (file ++ ext)) as [error|stats].
  - destruct (negb (code error =? "ENOENT")); [cbn; lia|exact Hlater].
  - destruct (isFile stats); [cbn; lia|].
    destruct (useIndex && isDirectory stats); [|exact Hlater].
    rewrite trace_bind, length_app.
    pose proof (Hself (joinPaths (file ++ ext) "index")) as Hi.
    destruct (result (self (joinPaths (file ++ ext) "index") false)) as [h|e|].
    + destruct (truthy h); [rewrite trace_ret|]; cbn [length Nat.mul]; lia.
    + rewrite trace_ret. cbn [length Nat.mul]. lia.
    + cbn [Nat.mul]. lia.
Qed.

(** X3. The resolver makes at most three [stat] calls with the index
    fallback off and at most twelve with it on, and it does nothing but
    [stat]. *)
Theorem resolveFile_stat_bound fs file useIndex :
  length (trace (resolveFile fs file useIndex))
  <= (if useIndex then 12 else 3)
  /\ Forall isStat (trace (resolveFile fs file useIndex)).
Proof.
  split; [|apply resolveFile_stats].
  destruct useIndex.
  - unfold resolveFile.
    apply (Nat.le_trans _ _ _
             (tryExtensions_stat_count _ fs file true ResolveExtensions 3
                (fun g => Nat.le_trans _ _ _
                   (tryExtensions_stat_count (fun _ _ => ret NotResolved)
                      fs g false ResolveExtensions 0
                      (fun _ => Nat.le_refl _))
                   (Nat.le_refl _)))).
    apply Nat.le_refl.
  - destruct (noindex_trace
                (fun f u => tryExtensions (fun _ _ => ret NotResolved) fs f u
                              ResolveExtensions) fs file ResolveExtensions)
      as (n & Hn & _).
    unfold resolveFile. rewrite Hn. unfold candidates.
    rewrite length_map, length_firstn. apply Nat.le_min_r.
Qed.

(** ** The directory tree builder *)

Lemma getType_directory stats :
  (isDirectory stats = true -> getType stats = "directory")
  /\ (isDirectory stats = false -> getType stats <> "directory").
Proof.
  unfold getType, isFile, isDirectory, isBlockDevice, isCharacterDevice,
    isSymbolicLink, isFIFO, isSocket.
  destruct (kind stats); split; intros H; try discriminate; reflexivity.
Qed.

Lemma promiseAll_Forall2 {A B} (f : A -> JsError + B) l l' :
  promiseAll f l = inr l' -> Forall2 (fun x y => f x = inr y) l l'.
Proof.
  revert l'. induction l as [|x rest IH]; intros l'; cbn [promiseAll].
  - intros [= <-]. constructor.
  - destruct (f x) as [e|y] eqn:Hx; [discriminate|].
    destruct (promiseAll f rest) as [e|ys]; [discriminate|].
    intros [= <-]. constructor; [exact Hx|]. now apply IH.
Qed.

Lemma promiseAll_fails {A B} (f : A -> JsError + B) l x error :
  In x l -> f x = inl error -> exists error', promiseAll f l = inl error'.
Proof.
  induction l as [|y rest IH]; intros Hin Hx; [destruct Hin|].
  cbn [promiseAll]. destruct (f y) as [e|b] eqn:Hy; [now exists e|].
  destruct Hin as [->|Hin]; [rewrite Hx in Hy; discriminate|].
  destruct (IH Hin Hx) as (e' & ->). now exists e'.
Qed.

Lemma Forall2_combine_in {A B} (R : A -> B -> Prop) l l' x :
  Forall2 R l l' -> In x l -> exists y, R x y /\ In (x, y) (combine l l').
Proof.
  induction 1 as [|a b l l' Hab _ IH]; intros Hin; [destruct Hin|].
  destruct Hin as [<-|Hin].
  - exists b. split; [exact Hab|now left].
  - destruct (IH Hin) as (y & Hy & Hc). exists y. split; [exact Hy|now right].
Qed.

Lemma Forall2_combine {A B C} (R : A -> B -> Prop) (Q : A * B -> C -> Prop)
    l l' l'' :
  Forall2 R l l' ->
  Forall2 Q (combine l l') l'' ->
  Forall2 (fun x z => exists y, R x y /\ Q (x, y) z) l l''.
Proof.
  intros HR. revert l''. induction HR as [|a b l l' Hab _ IH]; intros l'' HQ.
  - inversion HQ. constructor.
  - inversion HQ as [|p z ps zs Hp Hrest]; subst.
    constructor; [now exists b|]. now apply IH.
Qed.

Lemma getEntries_eq gct fs baseDir name maximumDepth :
  getEntries gct fs baseDir name maximumDepth
  = match fs_readdir fs (joinPaths baseDir name) with
    | inl error => inl error
    | inr files =>
        match promiseAll
                (fun file => getStats fs (joinPaths (joinPaths baseDir name) file))
                files with
        | inl error => inl error
        | inr statsArray =>
            promiseAll
              (fun '(file, stats) =>
                 resolveEntry gct (getEntries gct fs) baseDir
                   (joinPaths name file) stats maximumDepth)
              (combine files statsArray)
        end
    end.
Proof. destruct maximumDepth; reflexivity. Qed.

(** X4. The entries of a tree come one for each name of the directory's
    listing, in listing order; each has the path [name/file] and the type,
    size and modification time of the child's [lstat]. *)
Theorem getEntries_follows_listing gct fs baseDir name maximumDepth entries :
  getEntries gct fs baseDir name maximumDepth = inr entries ->
  exists files,
    fs_readdir fs (joinPaths baseDir name) = inr files
    /\ Forall2 (describes gct fs baseDir name) files entries
    /\ map entry_path entries = map (joinPaths name) files.
Proof.
  rewrite getEntries_eq.
  destruct (fs_readdir fs (joinPaths baseDir name)) as [e|files]; [discriminate|].
  destruct (promiseAll _ files) as [e|statsArray] eqn:Hstats; [discriminate|].
  intros Hentries. exists files. split; [reflexivity|].
  apply promiseAll_Forall2 in Hstats, Hentries.
  pose proof (Forall2_combine _ _ _ _ _ Hstats Hentries) as Hall.
  assert (Hdesc : Forall2 (describes gct fs baseDir name) files entries).
  { eapply Forall2_impl; [|exact Hall].
    intros file e (stats & Hs & He). unfold describes.
    unfold resolveEntry, resolveDirectory in He.
    destruct (isDirectory stats).
    - destruct maximumDepth as [|d].
      + injection He as <-. now exists stats, ChildrenNull.
      + destruct (getEntries gct fs baseDir (joinPaths name file) d) as [e'|es];
          [discriminate|].
        injection He as <-. now exists stats, (ChildrenArray es).
    - injection He as <-. now exists stats, ChildrenAbsent. }
  split; [exact Hdesc|].
  clear -Hdesc. induction Hdesc as [|file e files entries Hd _ IH]; [reflexivity|].
  cbn [map]. rewrite IH. destruct Hd as (stats & c & _ & ->). reflexivity.
Qed.

(** [lib/] lists [a.js] and [sub], in that order. *)
Lemma getEntries_follows_listing_witness :
  exists files,
    fs_readdir Scenario.fsTree (joinPaths "/tmp/name-1.0.0" "/lib/") = inr files
    /\ Forall2 (describes Instances.getContentType Scenario.fsTree
                  "/tmp/name-1.0.0" "/lib/")
         files
         [mkEntry "/lib/a.js" "2016-03-01T10:00:00.000Z"
            "application/javascript" 120 "file" ChildrenAbsent;
          mkEntry "/lib/sub" "2016-03-01T10:00:00.000Z" "text/plain" 4096
            "directory"
            (ChildrenArray
               [mkEntry "/lib/sub/b.js" "2016-03-01T10:00:00.000Z"
                  "application/javascript" 120 "file" ChildrenAbsent])]
    /\ map entry_path
         [mkEntry "/lib/a.js" "2016-03-01T10:00:00.000Z"
            "application/javascript" 120 "file" ChildrenAbsent;
          mkEntry "/lib/sub" "2016-03-01T10:00:00.000Z" "text/plain" 4096
            "directory"
            (ChildrenArray
               [mkEntry "/lib/sub/b.js" "2016-03-01T10:00:00.000Z"
                  "application/javascript" 120 "file" ChildrenAbsent])]
       = map (joinPaths "/lib/") files.
Proof.
  apply (getEntries_follows_listing Instances.getContentType Scenario.fsTree
           "/tmp/name-1.0.0" "/lib/" 1).
  reflexivity.
Defined.

Lemma promiseAll_Forall {A B} (f : A -> JsError + B) (P : B -> Prop) l l' :
  promiseAll f l = inr l' ->
  (forall x y, In x l -> f x = inr y -> P y) ->
  Forall P l'.
Proof.
  revert l'. induction l as [|x rest IH]; intros l'; cbn [promiseAll].
  - intros [= <-] _. constructor.
  - destruct (f x) as [e|y] eqn:Hx; [discriminate|].
    destruct (promiseAll f rest) as [e|ys]; [discriminate|].
    intros [= <-] HP. constructor.
    + apply (HP x); [now left|exact Hx].
    + apply IH; [reflexivity|]. intros x' y' Hin. apply HP. now right.
Qed.

(** X5. A tree built with the depth [maximumDepth] keeps the shape of that
    budget at every level: an entry that is no directory has no [children];
    a directory is expanded (an array) while budget is left and carries
    [null] where it is used up.  So the tree nests at most
    [maximumDepth + 1] levels of entries. *)
Theorem getEntries_shape gct fs maximumDepth :
  forall baseDir name entries,
    getEntries gct fs baseDir name maximumDepth = inr entries ->
    Forall (treeOK maximumDepth) entries.
Proof.
  induction maximumDepth as [|d IH]; intros baseDir name entries;
    rewrite getEntries_eq;
    (destruct (fs_readdir fs (joinPaths baseDir name)) as [e|files];
       [discriminate|]);
    (destruct (promiseAll _ files) as [e|statsArray]; [discriminate|]);
    intros Hentries; apply (promiseAll_Forall _ _ _ _ Hentries);
    intros [file stats] entry _; unfold resolveEntry, resolveDirectory;
    destruct (isDirectory stats) eqn:Hd.
  - intros [= <-]. cbn. split; [now apply getType_directory|reflexivity].
  - intros [= <-]. cbn. now apply getType_directory.
  - destruct (getEntries gct fs baseDir (joinPaths name file) d) as [e|es] eqn:Hes;
      [discriminate|].
    intros [= <-]. cbn. split; [now apply getType_directory|].
    exact (IH _ _ _ Hes).
  - intros [= <-]. cbn. now apply getType_directory.
Qed.

(** [lib/] below the package, built one level deep. *)
Lemma getEntries_shape_witness :
  Forall (treeOK 1)
    [mkEntry "/lib/a.js" "2016-03-01T10:00:00.000Z" "application/javascript"
       120 "file" ChildrenAbsent;
     mkEntry "/lib/sub" "2016-03-01T10:00:00.000Z" "text/plain" 4096
       "directory"
       (ChildrenArray
          [mkEntry "/lib/sub/b.js" "2016-03-01T10:00:00.000Z"
             "application/javascript" 120 "file" ChildrenAbsent])].
Proof.
  apply (getEntries_shape Instances.getContentType Scenario.fsTree 1
           "/tmp/name-1.0.0" "/lib/").
  reflexivity.
Defined.

(** X6. The builder answers a whole tree or none: when the listing of the
    directory fails, when the [lstat] of one listed child fails, or when
    the tree of one child directory fails, the build fails. *)
Theorem getEntries_all_or_nothing gct fs baseDir name maximumDepth :
  (forall error,
     fs_readdir fs (joinPaths baseDir name) = inl error ->
     getEntries gct fs baseDir name maximumDepth = inl error)
  /\ (forall files file error,
        fs_readdir fs (joinPaths baseDir name) = inr files ->
        In file files ->
        getStats fs (joinPaths (joinPaths baseDir name) file) = inl error ->
        exists error', getEntries gct fs baseDir name maximumDepth = inl error')
  /\ (forall files file stats depth error,
        maximumDepth = S depth ->
        fs_readdir fs (joinPaths baseDir name) = inr files ->
        In file files ->
        getStats fs (joinPaths (joinPaths baseDir name) file) = inr stats ->
        isDirectory stats = true ->
        getEntries gct fs baseDir (joinPaths name file) depth = inl error ->
        exists error', getEntries gct fs baseDir name maximumDepth = inl error').
Proof.
  split; [|split].
  - intros error H. rewrite getEntries_eq, H. reflexivity.
  - intros files file error Hdir Hin Hstat. rewrite getEntries_eq, Hdir.
    destruct (promiseAll_fails
                (fun f => getStats fs (joinPaths (joinPaths baseDir name) f))
                files file error Hin Hstat) as (e' & ->).
    now exists e'.
  - intros files file stats depth error -> Hdir Hin Hstat Hd Hsub.
    rewrite getEntries_eq, Hdir.
    destruct (promiseAll _ files) as [e|statsArray] eqn:Hstats; [now exists e|].
    apply promiseAll_Forall2 in Hstats.
    destruct (Forall2_combine_in _ _ _ _ Hstats Hin) as (stats' & Hs' & Hc).
    rewrite Hstat in Hs'. injection Hs' as <-.
    apply (promiseAll_fails _ _ (file, stats) error Hc).
    unfold resolveEntry, resolveDirectory. rewrite Hd, Hsub. reflexivity.
Qed.

(** [lib/] lists a file that is gone: no tree, though [a.js] is there. *)
Lemma getEntries_all_or_nothing_witness :
  exists error',
    getEntries Instances.getContentType Cases.fsVanished
      "/tmp/name-1.0.0" "/lib/" 3 = inl error'.
Proof.
  destruct (getEntries_all_or_nothing Instances.getContentType Cases.fsVanished
              "/tmp/name-1.0.0" "/lib/" 3) as (_ & Hchild & _).
  apply (Hchild ["a.js"; "gone.js"] "gone.js" Scenario.enoent).
  - reflexivity.
  - right. left. reflexivity.
  - reflexivity.
Defined.

(** ** The request handler *)

(** The ways of the handler once the URL has parsed: it serves from the
    disk after the cache lookup; or it answers from the registry's
    document; or the fetch fails; or it serves after the fetch, from the
    disk as the fetch left it. *)
Lemma handleParsed_cases w options req parsed fs :
  let gate := EvStat (joinPaths (tarballDir w parsed) "package.json") in
  let ask := EvRegistry (registryURL options) (packageName parsed) in
  let run := handleParsed w options req parsed fs in
  (result (checkLocalCache fs (tarballDir w parsed)) = true
   /\ run = (result (serveFile w options req parsed fs),
             gate :: trace (serveFile w options req parsed fs)))
  \/ (result (checkLocalCache fs (tarballDir w parsed)) = false
      /\ ((exists r, registryVerdict w options req parsed r
                     /\ run = (r, [gate; ask]))
          \/ (exists tarballURL error,
                run = (sendServerError error,
                       [gate; ask;
                        EvGetPackage tarballURL (tarballDir w parsed)]))
          \/ (exists tarballURL fs',
                run = (result (serveFile w options req parsed fs'),
                       gate :: ask
                       :: EvGetPackage tarballURL (tarballDir w parsed)
                       :: trace (serveFile w options req parsed fs'))))).
Proof.
  intros gate ask run. unfold run, gate, ask.
  destruct (result (checkLocalCache fs (tarballDir w parsed))) eqn:Hcache.
  { left. split; [reflexivity|]. now apply handleParsed_cached. }
  right. split; [reflexivity|].
  rewrite (handleParsed_miss _ _ _ _ _ Hcache). cbv zeta.
  unfold onPackageInfo, registryVerdict.
  destruct (getPackageInfo w (registryURL options) (packageName parsed))
    as [error|status jsonData].
  { left. eexists. split; [left; eexists; reflexivity|reflexivity]. }
  destruct (status =? 404)%Z.
  { left. eexists. split; [right; left; eexists; reflexivity|reflexivity]. }
  destruct jsonData as [info|];
    [|left; eexists; split; [left; eexists; reflexivity|reflexivity]].
  destruct (versions info) as [vs|];
    [|left; eexists; split; [left; eexists; reflexivity|reflexivity]].
  destruct (lookup (version parsed) vs) as [packageConfig|].
  { right. rewrite bind_emit, result_pair, trace_pair.
    destruct (getPackage w (dist_tarball packageConfig) (tarballDir w parsed) fs)
      as [[error|] fs'].
    - left. exists (dist_tarball packageConfig), error. reflexivity.
    - right. exists (dist_tarball packageConfig), fs'. reflexivity. }
  left.
  destruct (inherited (version parsed));
    [eexists; split; [right; right; right; reflexivity|reflexivity]|].
  destruct (dist_tags info) as [tags|];
    [|eexists; split; [right; right; right; reflexivity|reflexivity]].
  destruct (lookup (version parsed) tags) as [tagged|].
  { eexists. split; [right; right; left; eexists; reflexivity|reflexivity]. }
  destruct (maxSatisfyingVersion w (keys vs) (version parsed)) as [v|].
  - destruct (truthy v).
    + eexists. split; [right; right; left; eexists; reflexivity|reflexivity].
    + eexists. split; [right; left; eexists; reflexivity|reflexivity].
  - eexists. split; [right; left; eexists; reflexivity|reflexivity].
Qed.

Lemma serveFile_local w options req parsed fs :
  Forall isLocal (trace (serveFile w options req parsed fs)).
Proof.
  assert (Hstat : forall t, Forall isStat t -> Forall isLocal t).
  { intros t. apply Forall_impl. intros [] H; simpl; tauto. }
  unfold serveFile.
  destruct (filename parsed =? bowerBundle options).
  { rewrite bind_emit, trace_pair. constructor; [exact I|].
    destruct (createBowerPackage w fs (tarballDir w parsed)) as [e|[f|]];
      constructor. }
  destruct (truthy (filename parsed)).
  - cbv zeta. rewrite trace_bind. apply Forall_app. split.
    { apply Hstat, resolveFile_stats. }
    set (index := if autoIndex options then _ else _).
    assert (Hindex : Forall isLocal (trace index)).
    { unfold index. destruct (autoIndex options); [|constructor].
      rewrite bind_stat, trace_pair. constructor; [exact I|].
      destruct (fs_stat fs _) as [e|stats]; [constructor|].
      destruct (isDirectory stats); [|constructor].
      destruct (negb _); [constructor|].
      rewrite bind_emit, trace_pair. constructor; [exact I|].
      destruct (directoryTree _ _ _ _) as [[treeError|tree]|]; constructor. }
    destruct (result (resolveFile fs _ false)) as [f|e|].
    + destruct (truthy f); [constructor|exact Hindex].
    + constructor.
    + exact Hindex.
  - cbv zeta. rewrite bind_emit, trace_pair. constructor; [exact I|].
    destruct (fs_readManifest fs _) as [e|msg|packageConfig]; try constructor.
    destruct (truthy _ && negb _); [constructor|].
    destruct (match lookup _ packageConfig with Some _ => _ | None => _ end);
      try constructor.
    rewrite trace_bind. apply Forall_app. split.
    { apply Hstat, resolveFile_stats. }
    destruct (result (resolveFile fs _ true)); constructor.
Qed.

(** X7. The outside calls of one request follow one protocol.  A URL that
    does not parse is answered without any call.  Otherwise the cache
    lookup comes first; then the handler either works on the local disk
    only, or asks the registry once and stops, or asks the registry once,
    fetches one tarball into the package's cache directory and then works
    on the local disk only.  Nothing is asked or fetched twice. *)
Theorem handleRequest_protocol w options fs req :
  (parsePackageURL w (url req) = None ->
   handleRequest w options fs req = (sendInvalidURLError (url req), []))
  /\ (forall parsed,
        parsePackageURL w (url req) = Some parsed ->
        let gate := EvStat (joinPaths (tarballDir w parsed) "package.json") in
        let ask := EvRegistry (registryURL options) (packageName parsed) in
        exists local,
          Forall isLocal local
          /\ (trace (handleRequest w options fs req) = gate :: local
              \/ trace (handleRequest w options fs req) = [gate; ask]
              \/ exists tarballURL,
                   trace (handleRequest w options fs req)
                   = gate :: ask
                     :: EvGetPackage tarballURL (tarballDir w parsed) :: local)).
Proof.
  split.
  - intros H. unfold handleRequest. now rewrite H.
  - intros parsed Hparse gate ask.
    rewrite (handleRequest_parsed _ _ _ _ _ Hparse).
    destruct (handleParsed_cases w options req parsed fs)
      as [(_ & ->)|(_ & [(r & _ & ->)|[(u & e & ->)|(u & fs' & ->)]])];
      rewrite trace_pair.
    + exists (trace (serveFile w options req parsed fs)).
      split; [apply serveFile_local|left; reflexivity].
    + exists []. split; [constructor|right; left; reflexivity].
    + exists []. split; [constructor|right; right; now exists u].
    + exists (trace (serveFile w options req parsed fs')).
      split; [apply serveFile_local|right; right; now exists u].
Qed.

(** A request of a version that is not on disk: the lookup, the registry,
    the fetch, and the file from the disk. *)
Lemma handleRequest_protocol_witness :
  exists local,
    Forall isLocal local
    /\ (trace (handleRequest Scenario.world Scenario.wrapperOptions
                 Scenario.fsEmpty (Scenario.direct "/name@1.0.0/index.js"))
        = EvStat "/tmp/name-1.0.0/package.json" :: local
        \/ trace (handleRequest Scenario.world Scenario.wrapperOptions
                    Scenario.fsEmpty (Scenario.direct "/name@1.0.0/index.js"))
           = [EvStat "/tmp/name-1.0.0/package.json";
              EvRegistry "https://registry.npmjs.org" "name"]
        \/ exists tarballURL,
             trace (handleRequest Scenario.world Scenario.wrapperOptions
                      Scenario.fsEmpty (Scenario.direct "/name@1.0.0/index.js"))
             = EvStat "/tmp/name-1.0.0/package.json"
               :: EvRegistry "https://registry.npmjs.org" "name"
               :: EvGetPackage tarballURL "/tmp/name-1.0.0" :: local).
Proof.
  destruct (handleRequest_protocol Scenario.world Scenario.wrapperOptions
              Scenario.fsEmpty (Scenario.direct "/name@1.0.0/index.js"))
    as (_ & Hparsed).
  exact (Hparsed (mkPackageURL "name" "1.0.0" "/index.js" "") eq_refl).
Defined.

(** X8. When the manifest of the package's cache directory is a regular
    file, the handler answers from the local disk: it asks no registry and
    fetches nothing, whatever the version token is. *)
Theorem cache_hit_stays_local w options fs req parsed stats :
  parsePackageURL w (url req) = Some parsed ->
  fs_stat fs (joinPaths (tarballDir w parsed) "package.json") = inr stats ->
  isFile stats = true ->
  handleRequest w options fs req
  = (result (serveFile w options req parsed fs),
     EvStat (joinPaths (tarballDir w parsed) "package.json")
     :: trace (serveFile w options req parsed fs))
  /\ Forall isLocal (trace (handleRequest w options fs req)).
Proof.
  intros Hparse Hstat Hfile.
  assert (Hrun : handleRequest w options fs req
                 = (result (serveFile w options req parsed fs),
                    EvStat (joinPaths (tarballDir w parsed) "package.json")
                    :: trace (serveFile w options req parsed fs))).
  { rewrite (handleRequest_parsed _ _ _ _ _ Hparse).
    apply handleParsed_cached.
    rewrite checkLocalCache_eq, result_pair, Hstat. exact Hfile. }
  split; [exact Hrun|].
  rewrite Hrun, trace_pair. constructor; [exact I|apply serveFile_local].
Qed.

(** What is on disk under the name of a tag is served as it is. *)
Lemma cache_hit_stays_local_witness :
  handleRequest Scenario.world Scenario.wrapperOptions Cases.fsTagDirectory
    (Scenario.direct "/name@latest/f.js")
  = (sendFile "/tmp/name-latest/f.js" OneYear,
     [EvStat "/tmp/name-latest/package.json"; EvStat "/tmp/name-latest/f.js"])
  /\ Forall isLocal
       (trace (handleRequest Scenario.world Scenario.wrapperOptions
                 Cases.fsTagDirectory (Scenario.direct "/name@latest/f.js"))).
Proof.
  apply (cache_hit_stays_local Scenario.world Scenario.wrapperOptions
           Cases.fsTagDirectory (Scenario.direct "/name@latest/f.js")
           (mkPackageURL "name" "latest" "/f.js" "") Scenario.aFile);
    reflexivity.
Defined.

Lemma serveFile_responseOK w options req parsed fs :
  responseOK options req (result (serveFile w options req parsed fs)).
Proof.
  unfold serveFile.
  destruct (filename parsed =? bowerBundle options).
  { rewrite bind_emit, result_pair.
    destruct (createBowerPackage w fs (tarballDir w parsed)) as [e|[f|]];
      rewrite result_ret; cbn; trivial. }
  destruct (truthy (filename parsed)).
  - cbv zeta. rewrite result_bind.
    set (index := if autoIndex options then _ else _).
    assert (Hindex : responseOK options req (result index)).
    { unfold index. destruct (autoIndex options); [|exact I].
      rewrite bind_stat, result_pair.
      destruct (fs_stat fs _) as [e|stats]; [exact I|].
      destruct (isDirectory stats); [|exact I].
      destruct (negb _).
      - rewrite result_ret. split; [reflexivity|now exists "/"].
      - rewrite bind_emit, result_pair.
        destruct (directoryTree _ _ _ _) as [[treeError|tree]|]; rewrite result_ret;
          cbn; trivial. }
    destruct (result (resolveFile fs _ false)) as [f|e|].
    + destruct (truthy f); [rewrite result_ret; reflexivity|exact Hindex].
    + exact I.
    + exact Hindex.
  - cbv zeta. rewrite bind_emit, result_pair.
    destruct (fs_readManifest fs _) as [e|msg|packageConfig];
      try (rewrite result_ret; cbn; trivial; fail).
    destruct (truthy _ && negb _); [exact I|].
    destruct (match lookup _ packageConfig with Some _ => _ | None => _ end);
      try exact I.
    rewrite result_bind.
    destruct (result (resolveFile fs _ true)); rewrite result_ret; cbn; trivial.
Qed.

(** X9. Whatever the request, the disk and the registry: a file or a
    directory listing is sent with a lifetime of one year (31536000
    seconds), a redirect with the configured [redirectTTL] and to a
    location that starts with the base URL, and a text with status 500. *)
Theorem handleRequest_responseOK w options fs req :
  responseOK options req (result (handleRequest w options fs req)).
Proof.
  unfold handleRequest.
  destruct (parsePackageURL w (url req)) as [parsed|]; [|exact I].
  destruct (handleParsed_cases w options req parsed fs)
    as [(_ & ->)|(_ & [(r & Hr & ->)|[(u & e & ->)|(u & fs' & ->)]])];
    rewrite result_pair.
  - apply serveFile_responseOK.
  - destruct Hr as [(e & ->)|[(what & ->)|[(v & ->)| -> ]]]; try exact I.
    split; [reflexivity|]. eexists. reflexivity.
  - exact I.
  - apply serveFile_responseOK.
Qed.

Lemma serveFile_listing w options req parsed fs :
  (exists json maxAge,
     result (serveFile w options req parsed fs) = sendJSON json maxAge)
  \/ (exists baseDir dir,
        In (EvTree baseDir dir) (trace (serveFile w options req parsed fs))) ->
  autoIndex options = true
  /\ isSlash (lastChar (url req)) = true
  /\ truthy (filename parsed) = true
  /\ In (EvTree (tarballDir w parsed) (filename parsed))
       (trace (serveFile w options req parsed fs)).
Proof.
  assert (Hstats : forall t baseDir dir,
            Forall isStat t -> ~ In (EvTree baseDir dir) t).
  { intros t b d Ht Hin. rewrite Forall_forall in Ht. exact (Ht _ Hin). }
  unfold serveFile.
  destruct (filename parsed =? bowerBundle options).
  { rewrite bind_emit, result_pair, trace_pair.
    destruct (createBowerPackage w fs (tarballDir w parsed)) as [e|[f|]];
      rewrite result_ret, trace_ret;
      intros [(j & m & H)|(b & d & [H|[]])]; discriminate. }
  destruct (truthy (filename parsed)).
  - cbv zeta. rewrite result_bind, trace_bind.
    pose proof (resolveFile_stats fs
                  (joinPaths (tarballDir w parsed) (filename parsed)) false)
      as Hres.
    set (tr := trace (resolveFile fs _ false)) in *.
    set (index := if autoIndex options then _ else _).
    assert (Hindex :
      (exists json maxAge, result index = sendJSON json maxAge)
      \/ (exists baseDir dir, In (EvTree baseDir dir) (tr ++ trace index)) ->
      autoIndex options = true
      /\ isSlash (lastChar (url req)) = true
      /\ true = true
      /\ In (EvTree (tarballDir w parsed) (filename parsed))
           (tr ++ trace index)).
    { unfold index. destruct (autoIndex options).
      - rewrite bind_stat, result_pair, trace_pair.
        destruct (fs_stat fs _) as [e|stats].
        + rewrite result_ret, trace_ret.
          intros [(j & m & H)|(b & d & H)]; [discriminate|].
          apply in_app_or in H. destruct H as [H|[H|[]]];
            [destruct (Hstats _ _ _ Hres H)|discriminate].
        + destruct (isDirectory stats).
          * destruct (isSlash (lastChar (url req))); cbn [negb].
            { intros _. repeat split. apply in_or_app. right.
              rewrite bind_emit, trace_pair. right. left. reflexivity. }
            rewrite result_ret, trace_ret.
            intros [(j & m & H)|(b & d & H)]; [discriminate|].
            apply in_app_or in H. destruct H as [H|[H|[]]];
              [destruct (Hstats _ _ _ Hres H)|discriminate].
          * rewrite result_ret, trace_ret.
            intros [(j & m & H)|(b & d & H)]; [discriminate|].
            apply in_app_or in H. destruct H as [H|[H|[]]];
              [destruct (Hstats _ _ _ Hres H)|discriminate].
      - rewrite result_ret, trace_ret.
        intros [(j & m & H)|(b & d & H)]; [discriminate|].
        apply in_app_or in H. destruct H as [H|[]].
        destruct (Hstats _ _ _ Hres H). }
    destruct (result (resolveFile fs _ false)) as [f|e|].
    + destruct (truthy f); [|exact Hindex].
      rewrite result_ret, trace_ret, app_nil_r.
      intros [(j & m & H)|(b & d & H)]; [discriminate|].
      destruct (Hstats _ _ _ Hres H).
    + rewrite result_ret, trace_ret, app_nil_r.
      intros [(j & m & H)|(b & d & H)]; [discriminate|].
      destruct (Hstats _ _ _ Hres H).
    + exact Hindex.
  - cbv zeta. rewrite bind_emit, result_pair, trace_pair.
    destruct (fs_readManifest fs _) as [e|msg|packageConfig];
      try (rewrite result_ret, trace_ret;
           intros [(j & m & H)|(b & d & [H|[]])]; discriminate).
    destruct (truthy _ && negb _);
      [rewrite result_ret, trace_ret;
       intros [(j & m & H)|(b & d & [H|[]])]; discriminate|].
    destruct (match lookup _ packageConfig with Some _ => _ | None => _ end)
      as [s|number|flag| | |];
      try (rewrite result_ret, trace_ret;
           intros [(j & m & H)|(b & d & [H|[]])]; discriminate).
    rewrite result_bind, trace_bind.
    pose proof (resolveFile_stats fs (joinPaths (tarballDir w parsed) s) true)
      as Hres.
    destruct (result (resolveFile fs _ true)); rewrite result_ret, trace_ret,
      app_nil_r;
      (intros [(j & m & H)|(b & d & [H|H])];
       [discriminate|discriminate|destruct (Hstats _ _ _ Hres H)]).
Qed.

(** X10. The handler builds a directory tree, and sends a listing, only
    with [autoIndex] on, only for a request URL that ends in a slash and
    names a file, and then it builds the tree of the requested filename
    below the cache directory of the requested package. *)
Theorem listing_only_on_slash w options fs req :
  (exists json maxAge,
     result (handleRequest w options fs req) = sendJSON json maxAge)
  \/ (exists baseDir dir,
        In (EvTree baseDir dir) (trace (handleRequest w options fs req))) ->
  autoIndex options = true
  /\ isSlash (lastChar (url req)) = true
  /\ exists parsed,
       parsePackageURL w (url req) = Some parsed
       /\ truthy (filename parsed) = true
       /\ In (EvTree (tarballDir w parsed) (filename parsed))
            (trace (handleRequest w options fs req)).
Proof.
  unfold handleRequest.
  destruct (parsePackageURL w (url req)) as [parsed|] eqn:Hparse.
  2:{ rewrite result_ret, trace_ret.
      intros [(j & m & H)|(b & d & [])]; discriminate. }
  intros H.
  assert (Hmain : autoIndex options = true
                  /\ isSlash (lastChar (url req)) = true
                  /\ truthy (filename parsed) = true
                  /\ In (EvTree (tarballDir w parsed) (filename parsed))
                       (trace (handleParsed w options req parsed fs))).
  { revert H.
    destruct (handleParsed_cases w options req parsed fs)
      as [(_ & ->)|(_ & [(r & Hr & ->)|[(u & e & ->)|(u & fs' & ->)]])];
      rewrite result_pair, trace_pair; intros H.
    - destruct (serveFile_listing w options req parsed fs)
        as (Ha & Hs & Hf & Hin).
      { destruct H as [H|(b & d & [H|H])]; [now left|discriminate|].
        right. now exists b, d. }
      repeat split; try assumption. now right.
    - exfalso. destruct H as [(j & m & H)|(b & d & [H|[H|[]]])];
        try discriminate.
      destruct Hr as [(e & ->)|[(what & ->)|[(v & ->)| -> ]]]; discriminate.
    - exfalso. destruct H as [(j & m & H)|(b & d & [H|[H|[H|[]]]])];
        discriminate.
    - destruct (serveFile_listing w options req parsed fs')
        as (Ha & Hs & Hf & Hin).
      { destruct H as [H|(b & d & [H|[H|[H|H]]])];
          [now left|discriminate|discriminate|discriminate|].
        right. now exists b, d. }
      repeat split; try assumption. right. right. now right. }
  destruct Hmain as (Ha & Hs & Hf & Hin). repeat split; try assumption.
  exists parsed. now repeat split.
Qed.

(** The directory [lib/] of a package on disk, asked for with the slash. *)
Lemma listing_only_on_slash_witness :
  autoIndex Scenario.wrapperOptions = true
  /\ isSlash (lastChar (url (Scenario.direct "/name@1.0.0/lib/"))) = true
  /\ exists parsed,
       parsePackageURL Scenario.world (url (Scenario.direct "/name@1.0.0/lib/"))
       = Some parsed
       /\ truthy (filename parsed) = true
       /\ In (EvTree (tarballDir Scenario.world parsed) (filename parsed))
            (trace (handleRequest Scenario.world Scenario.wrapperOptions
                      Scenario.fsTree (Scenario.direct "/name@1.0.0/lib/"))).
Proof.
  apply (listing_only_on_slash Scenario.world Scenario.wrapperOptions
           Scenario.fsTree (Scenario.direct "/name@1.0.0/lib/")).
  left. eexists. eexists. vm_compute. reflexivity.
Defined.

(** ** The base URL *)

Lemma length_append_string p q :
  String.length (p ++ q) = (String.length p + String.length q)%nat.
Proof. induction p as [|c p IH]; [reflexivity|]. cbn. now rewrite IH. Qed.

Lemma substring_prefix_of p q : substring 0 (String.length p) (p ++ q) = p.
Proof.
  induction p as [|c p IH]; [destruct q; reflexivity|]. cbn. now rewrite IH.
Qed.

Lemma substring_is_prefix n s : exists rest, s = substring 0 n s ++ rest.
Proof.
  revert s. induction n as [|n IH]; intros s.
  - exists s. destruct s; reflexivity.
  - destruct s as [|c s]; [now exists ""|].
    destruct (IH s) as (rest & Hrest). exists rest. cbn. now rewrite <- Hrest.
Qed.

Lemma baseUrl_of_prefix req prefix :
  originalUrl req = prefix ++ url req -> baseUrl req = prefix.
Proof.
  intros H. unfold baseUrl, slice0. rewrite H, length_append_string.
  replace (Z.of_nat (String.length prefix + String.length (url req))
           - Z.of_nat (String.length (url req)))%Z
    with (Z.of_nat (String.length prefix)) by lia.
  destruct (Z.ltb_spec (Z.of_nat (String.length prefix)) 0); [lia|].
  rewrite Z.min_l by lia. rewrite Nat2Z.id. apply substring_prefix_of.
Qed.

(** X11. The base URL is a prefix of the original URL; and when the
    original URL is some prefix followed by the request URL (a handler
    mounted under that prefix), the base URL is that prefix, so the base
    URL followed by the request URL is the original URL again. *)
Theorem baseUrl_is_mount_prefix req :
  (exists rest, originalUrl req = baseUrl req ++ rest)
  /\ forall prefix,
       originalUrl req = prefix ++ url req ->
       baseUrl req = prefix /\ baseUrl req ++ url req = originalUrl req.
Proof.
  split.
  - unfold baseUrl, slice0. apply substring_is_prefix.
  - intros prefix H. rewrite (baseUrl_of_prefix req prefix H).
    split; [reflexivity|now rewrite H].
Qed.

Lemma baseUrl_is_mount_prefix_witness :
  baseUrl (Scenario.routed "/name@1.0.0/lib") = "/api/run/container/task"
  /\ baseUrl (Scenario.routed "/name@1.0.0/lib")
     ++ url (Scenario.routed "/name@1.0.0/lib")
     = originalUrl (Scenario.routed "/name@1.0.0/lib").
Proof.
  destruct (baseUrl_is_mount_prefix (Scenario.routed "/name@1.0.0/lib"))
    as (_ & Hmount).
  exact (Hmount "/api/run/container/task" eq_refl).
Defined.

(** ** The route wrapper *)

Lemma span_all p s more :
  allChars p s = true ->
  match more with String c _ => p c = false | EmptyString => True end ->
  span p (s ++ more) = (s, more).
Proof.
  intros Hs Hmore. induction s as [|c s IH].
  - destruct more as [|c more]; [reflexivity|]. cbn. now rewrite Hmore.
  - cbn in Hs. apply andb_prop in Hs. destruct Hs as (Hc & Hs).
    cbn. rewrite Hc, (IH Hs). reflexivity.
Qed.

Lemma matchContainer_segment c more :
  c <> "" -> allChars containerChar c = true ->
  matchContainer (c ++ "/" ++ more) = Some more.
Proof.
  intros Hne Hc. unfold matchContainer.
  rewrite (span_all containerChar c ("/" ++ more) Hc) by reflexivity.
  apply String.eqb_neq in Hne. now rewrite Hne.
Qed.

Lemma matchTask_segment t more :
  t <> "" -> allChars taskChar t = true ->
  matchTask (t ++ "/" ++ more) = more.
Proof.
  intros Hne Ht. unfold matchTask.
  rewrite (span_all taskChar t ("/" ++ more) Ht) by reflexivity.
  apply String.eqb_neq in Hne. now rewrite Hne.
Qed.

Lemma dropPrefix_api c more :
  allChars containerChar c = true -> c <> "api" ->
  dropPrefix "api/run/" (c ++ "/" ++ more) = None.
Proof.
  intros Hc Hne.
  destruct c as [|a1 c]; [reflexivity|]. cbn [append dropPrefix].
  destruct (Ascii.eqb_spec "a" a1) as [<-|]; [|reflexivity].
  destruct c as [|a2 c]; [reflexivity|]. cbn [append dropPrefix].
  destruct (Ascii.eqb_spec "p" a2) as [<-|]; [|reflexivity].
  destruct c as [|a3 c]; [reflexivity|]. cbn [append dropPrefix].
  destruct (Ascii.eqb_spec "i" a3) as [<-|]; [|reflexivity].
  destruct c as [|a4 c]; [contradiction|]. cbn [append dropPrefix].
  destruct (Ascii.eqb_spec "/" a4) as [<-|]; [|reflexivity].
  discriminate Hc.
Qed.

Lemma append_assoc_string a b c : (a ++ b) ++ c = a ++ (b ++ c).
Proof. induction a as [|x a IH]; [reflexivity|]. cbn [append]. now rewrite IH. Qed.

Lemma normalizeRouteRx_api s :
  normalizeRouteRx ("/api/run/" ++ s)
  = match match matchContainer s with
          | Some more => Some more
          | None => matchContainer ("api/run/" ++ s)
          end with
    | Some more => Some (matchTask more)
    | None => None
    end.
Proof. reflexivity. Qed.

Lemma normalizeRouteRx_plain s :
  normalizeRouteRx ("/" ++ s)
  = match match dropPrefix "api/run/" s with
          | Some s' =>
              match matchContainer s' with
              | Some more => Some more
              | None => matchContainer s
              end
          | None => matchContainer s
          end with
    | Some more => Some (matchTask more)
    | None => None
    end.
Proof. reflexivity. Qed.

(** X12. Behind a route of a container and a named task, with or without
    the [api/run/] lead, [fromConnect] hands the handler the path after the
    route and keeps the full URL as the original one; the handler's base
    URL is then the route, and the base URL followed by the path is the
    URL as it came. *)
Theorem fromConnect_cuts_route (api : bool) container task path query :
  container <> "" -> allChars containerChar container = true ->
  task <> "" -> allChars taskChar task = true ->
  (api = false -> container <> "api") ->
  let route := (if api then "/api/run/" else "/") ++ container ++ "/" ++ task in
  let req := fromConnect (fun r => r) (mkRequest (route ++ "/" ++ path) "" query) in
  url req = "/" ++ path
  /\ originalUrl req = route ++ "/" ++ path
  /\ baseUrl req = route
  /\ baseUrl req ++ url req = originalUrl req.
Proof.
  intros Hc1 Hc2 Ht1 Ht2 Hapi route req.
  assert (Hurl : url req = "/" ++ path).
  { unfold req, fromConnect, route. cbn [url]. unfold normalizeRoute.
    rewrite !append_assoc_string.
    destruct api.
    - rewrite normalizeRouteRx_api, (matchContainer_segment _ _ Hc1 Hc2),
        (matchTask_segment _ _ Ht1 Ht2).
      reflexivity.
    - rewrite normalizeRouteRx_plain, (dropPrefix_api _ _ Hc2 (Hapi eq_refl)),
        (matchContainer_segment _ _ Hc1 Hc2), (matchTask_segment _ _ Ht1 Ht2).
      reflexivity. }
  assert (Horig : originalUrl req = route ++ "/" ++ path) by reflexivity.
  assert (Hbase : baseUrl req = route).
  { apply baseUrl_of_prefix. rewrite Horig, Hurl. reflexivity. }
  repeat split; try assumption. rewrite Hbase, Hurl, Horig. reflexivity.
Qed.

(** The route of the wrapper's host. *)
Lemma fromConnect_cuts_route_witness :
  let req :=
    fromConnect (fun r => r)
      (mkRequest "/api/run/container/task/name@1.0.0/lib" "" None) in
  url req = "/name@1.0.0/lib"
  /\ originalUrl req = "/api/run/container/task/name@1.0.0/lib"
  /\ baseUrl req = "/api/run/container/task"
  /\ baseUrl req ++ url req = originalUrl req.
Proof.
  apply (fromConnect_cuts_route true "container" "task" "name@1.0.0/lib" None);
    try discriminate; reflexivity.
Defined.

(** ** Failures upstream and in the manifest *)

(** X13. On a cache miss, a failure of the registry lookup is answered as
    that server error; a document without content or without versions as
    the server error "Unable to retrieve info for package [name]"; and a
    failure of the tarball fetch as that server error.  In each case no
    file is examined or read after the cache lookup, and after a failed
    lookup nothing is fetched.  A document that has versions but no dist-tags
    makes the handler throw, when the token is no version. *)
Theorem upstream_failures w options fs req parsed :
  parsePackageURL w (url req) = Some parsed ->
  result (checkLocalCache fs (tarballDir w parsed)) = false ->
  let run := handleRequest w options fs req in
  let answer := getPackageInfo w (registryURL options) (packageName parsed) in
  let gate := EvStat (joinPaths (tarballDir w parsed) "package.json") in
  let ask := EvRegistry (registryURL options) (packageName parsed) in
  (forall error,
     answer = RegistryFailed error ->
     run = (sendServerError error, [gate; ask]))
  /\ (forall status jsonData,
        answer = RegistryResponse status jsonData ->
        status <> 404%Z ->
        jsonData = None
        \/ (exists info, jsonData = Some info /\ versions info = None) ->
        run = (sendServerError
                 (mkError ""
                    ("Unable to retrieve info for package " ++ packageName parsed)),
               [gate; ask]))
  /\ (forall status info vs packageConfig error fs',
        answer = RegistryResponse status (Some info) ->
        status <> 404%Z ->
        versions info = Some vs ->
        lookup (version parsed) vs = Some packageConfig ->
        getPackage w (dist_tarball packageConfig) (tarballDir w parsed) fs
        = (Some error, fs') ->
        run = (sendServerError error,
               [gate; ask;
                EvGetPackage (dist_tarball packageConfig) (tarballDir w parsed)]))
  /\ (forall status info vs,
        answer = RegistryResponse status (Some info) ->
        status <> 404%Z ->
        versions info = Some vs ->
        lookup (version parsed) vs = None ->
        dist_tags info = None ->
        run = (uncaughtTypeError, [gate; ask])).
Proof.
  intros Hparse Hcache run answer gate ask. unfold run, answer, gate, ask.
  rewrite (handleRequest_parsed _ _ _ _ _ Hparse), (handleParsed_miss _ _ _ _ _ Hcache).
  cbv zeta. unfold onPackageInfo. split; [|split; [|split]].
  - intros error ->. reflexivity.
  - intros status jsonData -> Hstatus Hdoc. apply Z.eqb_neq in Hstatus.
    rewrite Hstatus. destruct Hdoc as [->|(info & -> & ->)]; reflexivity.
  - intros status info vs packageConfig error fs' -> Hstatus Hvs Hv Hget.
    apply Z.eqb_neq in Hstatus.
    rewrite Hstatus, Hvs, Hv, bind_emit, Hget. reflexivity.
  - intros status info vs -> Hstatus Hvs Hv Htags. apply Z.eqb_neq in Hstatus.
    rewrite Hstatus, Hvs, Hv, Htags.
    destruct (inherited (version parsed)); reflexivity.
Qed.

(** A registry out of reach. *)
Lemma upstream_failures_witness :
  handleRequest Cases.worldOffline Scenario.wrapperOptions Scenario.fsEmpty
    (Scenario.direct "/name@1.0.0/index.js")
  = (sendServerError Cases.econnrefused,
     [EvStat "/tmp/name-1.0.0/package.json";
      EvRegistry "https://registry.npmjs.org" "name"]).
Proof.
  destruct (upstream_failures Cases.worldOffline Scenario.wrapperOptions
              Scenario.fsEmpty (Scenario.direct "/name@1.0.0/index.js")
              (mkPackageURL "name" "1.0.0" "/index.js" "") eq_refl eq_refl)
    as (Hfailed & _).
  exact (Hfailed Cases.econnrefused eq_refl).
Defined.

(** X14. For a request without a filename on a package that is on disk: a
    manifest that cannot be read is answered as that server error; one
    that does not parse as a text with status 500 that carries the
    parser's message; an entry field whose value is falsy (an empty string,
    [null], [false], 0) counts as missing, and [index] is resolved; and an
    entry field whose value is truthy but no string makes the handler
    throw.  In no case but the third is a file looked for. *)
Theorem manifest_failures w options fs req parsed :
  parsePackageURL w (url req) = Some parsed ->
  filename parsed = "" ->
  result (checkLocalCache fs (tarballDir w parsed)) = true ->
  let manifest := joinPaths (tarballDir w parsed) "package.json" in
  let queryMain :=
    match query req with
    | Some q => match lookup "main" q with Some m => m | None => "" end
    | None => ""
    end in
  let field := if truthy queryMain then queryMain else "main" in
  let run := handleRequest w options fs req in
  (forall error,
     fs_readManifest fs manifest = ReadFailed error ->
     run = (sendServerError error, [EvStat manifest; EvReadFile manifest]))
  /\ (forall msg,
        fs_readManifest fs manifest = ParseFailed msg ->
        run = (sendText 500 ("Error parsing package.json: " ++ msg),
               [EvStat manifest; EvReadFile manifest]))
  /\ (forall packageConfig value,
        fs_readManifest fs manifest = Parsed packageConfig ->
        lookup field packageConfig = Some value ->
        (jsTruthy value = false ->
         trace run
         = (EvStat manifest :: EvReadFile manifest
            :: trace (resolveFile fs (joinPaths (tarballDir w parsed) "index")
                        true))%list)
        /\ (jsTruthy value = true ->
            (forall s, value <> JString s) ->
            run = (uncaughtTypeError, [EvStat manifest; EvReadFile manifest]))).
Proof.
  intros Hparse Hname Hcache manifest queryMain field run.
  unfold run, manifest.
  rewrite (handleRequest_parsed _ _ _ _ _ Hparse), (handleParsed_cached _ _ _ _ _ Hcache).
  assert (Hbower : (filename parsed =? bowerBundle options) = false).
  { rewrite Hname. unfold bowerBundle, orElse.
    destruct (opt_bowerBundle options) as [s|]; [|reflexivity].
    destruct (truthy s) eqn:Hs; [|reflexivity].
    unfold truthy in Hs. apply negb_true_iff in Hs.
    now rewrite String.eqb_sym. }
  unfold serveFile. rewrite Hbower, Hname. cbv zeta.
  change (truthy "") with false. cbv iota.
  rewrite bind_emit, !result_pair, !trace_pair.
  fold queryMain. fold field.
  split; [|split].
  - intros error ->. reflexivity.
  - intros msg ->. reflexivity.
  - intros packageConfig value -> Hvalue.
    assert (Hgo : (truthy queryMain && negb (hasProperty queryMain packageConfig))
                  = false).
    { destruct (truthy queryMain) eqn:Hq; [|reflexivity].
      unfold hasProperty, hasKey. unfold field in Hvalue.
      try rewrite Hq in Hvalue. cbv iota in Hvalue. now rewrite Hvalue. }
    rewrite Hgo, Hvalue. split.
    + intros ->. rewrite trace_bind.
      destruct (result (resolveFile fs (joinPaths (tarballDir w parsed) "index")
                          true));
        rewrite trace_ret, app_nil_r; reflexivity.
    + intros -> Hns. destruct value; try reflexivity.
      destruct (Hns s eq_refl).
Qed.

(** The manifest says ["main": ""]: [index] is resolved. *)
Lemma manifest_failures_witness :
  trace (handleRequest Scenario.world Scenario.wrapperOptions Cases.fsEmptyMain
           (Scenario.direct "/name@1.0.0"))
  = [EvStat "/tmp/name-1.0.0/package.json";
     EvReadFile "/tmp/name-1.0.0/package.json";
     EvStat "/tmp/name-1.0.0/index"; EvStat "/tmp/name-1.0.0/index.js"].
Proof.
  destruct (manifest_failures Scenario.world Scenario.wrapperOptions
              Cases.fsEmptyMain (Scenario.direct "/name@1.0.0")
              (mkPackageURL "name" "1.0.0" "" "") eq_refl eq_refl eq_refl)
    as (_ & _ & Hvalue).
  destruct (Hvalue [("main", JString "")] (JString "") eq_refl eq_refl)
    as (Hfalsy & _).
  exact (Hfalsy eq_refl).
Defined.

(** ** Files sent and files missing *)



(** X16. For a filename of a package on disk that the resolver does not
    find: with [autoIndex] off the handler answers NotFound naming the
    file and looks no further; with it on it examines the path once more
    and answers the same NotFound when the path is no directory, and also
    when that [stat] fails, whatever the error.  An error of the resolver
    is answered as that server error. *)
Theorem missing_file_not_found w options fs req parsed :
  parsePackageURL w (url req) = Some parsed ->
  result (checkLocalCache fs (tarballDir w parsed)) = true ->
  (filename parsed =? bowerBundle options) = false ->
  truthy (filename parsed) = true ->
  let filepath := joinPaths (tarballDir w parsed) (filename parsed) in
  let gate := EvStat (joinPaths (tarballDir w parsed) "package.json") in
  let run := handleRequest w options fs req in
  let missing :=
    sendNotFoundError
      ("file " ++ dq ++ filename parsed ++ dq ++ " in package "
       ++ packageName parsed ++ "@" ++ version parsed) in
  (result (resolveFile fs filepath false) = NotResolved ->
   (autoIndex options = false ->
    run = (missing, gate :: trace (resolveFile fs filepath false)))
   /\ (autoIndex options = true ->
       match fs_stat fs filepath with
       | inr stats => isDirectory stats = false
       | inl _ => True
       end ->
       run = (missing,
              gate :: (trace (resolveFile fs filepath false)
                       ++ [EvStat filepath])%list)))
  /\ (forall error,
        result (resolveFile fs filepath false) = ResolveError error ->
        run = (sendServerError error,
               gate :: trace (resolveFile fs filepath false))).
Proof.
  intros Hparse Hcache Hbower Hname filepath gate run missing.
  unfold run, gate, missing, filepath.
  rewrite (handleRequest_parsed _ _ _ _ _ Hparse), (handleParsed_cached _ _ _ _ _ Hcache).
  unfold serveFile. rewrite Hbower, Hname. cbv zeta.
  rewrite result_bind, trace_bind. split.
  - intros ->. split.
    + intros ->. rewrite result_ret, trace_ret, app_nil_r. reflexivity.
    + intros -> Hno. rewrite bind_stat, result_pair, trace_pair.
      destruct (fs_stat fs _) as [e|stats]; [reflexivity|].
      rewrite Hno. reflexivity.
  - intros error ->. rewrite result_ret, trace_ret, app_nil_r. reflexivity.
Qed.

(** The package [name@1.0.0] is on disk and has no [nope.js]. *)
Lemma missing_file_not_found_witness :
  handleRequest Scenario.world Scenario.wrapperOptions Scenario.fsMain
    (Scenario.direct "/name@1.0.0/nope.js")
  = (sendNotFoundError
       ("file " ++ dq ++ "/nope.js" ++ dq ++ " in package name@1.0.0"),
     [EvStat "/tmp/name-1.0.0/package.json"; EvStat "/tmp/name-1.0.0/nope.js";
      EvStat "/tmp/name-1.0.0/nope.js.js"; EvStat "/tmp/name-1.0.0/nope.js.json";
      EvStat "/tmp/name-1.0.0/nope.js"]).
Proof.
  destruct (missing_file_not_found Scenario.world Scenario.wrapperOptions
              Scenario.fsMain (Scenario.direct "/name@1.0.0/nope.js")
              (mkPackageURL "name" "1.0.0" "/nope.js" "")
              eq_refl eq_refl eq_refl eq_refl)
    as (Hnone & _).
  destruct (Hnone eq_refl) as (_ & Hon).
  exact (Hon eq_refl I).
Defined.

(** ** The resolver's chain, as it runs *)

(** X17. The resolver examines [file], [file + ".js"], [file + ".json"] in
    that order and stops at the first that answers.  With the index
    fallback off its answer is that of the specification's chain: the
    first candidate that is a regular file, a directory not counting as
    one.  With either setting, when a candidate is a regular file and the
    chain has passed over the candidates before it, the resolver answers
    that candidate and examines none after it; so [file + ".js"] wins over
    [file + ".json"]. *)
Theorem extension_priority fs file useIndex pre ext post stats :
  ResolveExtensions = (pre ++ ext :: post)%list ->
  Forall (fun e => passedOver useIndex (fs_stat fs (file ++ e))) pre ->
  fs_stat fs (file ++ ext) = inr stats ->
  isFile stats = true ->
  resolveFile fs file useIndex
  = (ResolvedFile (file ++ ext), candidates file (pre ++ [ext]))
  /\ result (resolveFile fs file false)
     = specExtensions fs file ResolveExtensions
  /\ exists n, trace (resolveFile fs file false)
               = candidates file (firstn (S n) ResolveExtensions).
Proof.
  intros Hsplit Hpre Hs Hf. split; [|split].
  - rewrite resolveFile_unfold, Hsplit, (tryExtensions_passed _ _ _ _ _ _ Hpre).
    rewrite (tryExtensions_file _ _ _ _ _ _ _ Hs Hf), candidates_app.
    reflexivity.
  - apply noindex_spec.
  - destruct (noindex_trace (fun f u =>
                 tryExtensions (fun _ _ => ret NotResolved) fs f u
                   ResolveExtensions) fs file ResolveExtensions)
      as (n & Hn & Hne).
    destruct n as [|n]; [exfalso; apply Hne; [discriminate|reflexivity]|].
    exists n. exact Hn.
Qed.

(** [lib] is a directory and both [lib.js] and [lib.json] are files: the
    resolver passes over the directory and answers [lib.js]. *)
Lemma extension_priority_witness :
  resolveFile Scenario.fsBothExtensions "/pkg/lib" false
  = (ResolvedFile "/pkg/lib.js", [EvStat "/pkg/lib"; EvStat "/pkg/lib.js"])
  /\ specExtensions Scenario.fsBothExtensions "/pkg/lib" ResolveExtensions
     = ResolvedFile "/pkg/lib.js".
Proof.
  destruct (extension_priority Scenario.fsBothExtensions "/pkg/lib" false
              [""] ".js" [".json"] Scenario.aFile)
    as (Hanswer & _ & _).
  - reflexivity.
  - constructor; [split; reflexivity|constructor].
  - reflexivity.
  - reflexivity.
  - split; [exact Hanswer|reflexivity].
Defined.

(** X18. With the index fallback on, the fallback fires
    at a candidate that is a directory, when the chain reaches it and before
    any later candidate is examined: the resolver resolves [index] inside
    that directory with the fallback off (so it examines the three
    candidates of the index file at most, and no index of an index).  A
    file found there is the answer, an error there is the answer, and when
    nothing is found there the chain goes on with the later candidates. *)
Theorem index_fallback_at_directory fs file pre ext post stats :
  ResolveExtensions = (pre ++ ext :: post)%list ->
  Forall (fun e => passedOver true (fs_stat fs (file ++ e))) pre ->
  fs_stat fs (file ++ ext) = inr stats ->
  isDirectory stats = true ->
  let index := joinPaths (file ++ ext) "index" in
  let inner := resolveFile fs index false in
  let before := candidates file (pre ++ [ext]) in
  let later := tryExtensions (resolveFile fs) fs file true post in
  (exists n, trace inner = candidates index (firstn (S n) ResolveExtensions))
  /\ (forall f, result inner = ResolvedFile f ->
        resolveFile fs file true
        = (ResolvedFile f, (before ++ trace inner)%list))
  /\ (forall error, result inner = ResolveError error ->
        resolveFile fs file true
        = (ResolveError error, (before ++ trace inner)%list))
  /\ (result inner = NotResolved ->
        resolveFile fs file true
        = (result later, (before ++ trace inner ++ trace later)%list)).
Proof.
  intros Hsplit Hpre Hs Hd index inner before later.
  assert (Hchain :
    resolveFile fs file true
    = (result (i <- inner ;;
               match i with
               | ResolveError error => ret (ResolveError error)
               | ResolvedFile indexFile =>
                   if truthy indexFile then ret (ResolvedFile indexFile)
                   else later
               | NotResolved => later
               end),
       (before ++ trace (i <- inner ;;
                         match i with
                         | ResolveError error => ret (ResolveError error)
                         | ResolvedFile indexFile =>
                             if truthy indexFile then ret (ResolvedFile indexFile)
                             else later
                         | NotResolved => later
                         end))%list)).
  { rewrite resolveFile_unfold, Hsplit, (tryExtensions_passed _ _ _ _ _ _ Hpre).
    rewrite tryExtensions_cons. cbv zeta.
    rewrite Hs, (isDirectory_not_file _ Hd), Hd. simpl andb. cbv iota.
    unfold result at 1, trace at 1. simpl fst; simpl snd.
    unfold before. rewrite candidates_app, <- app_assoc. reflexivity. }
  rewrite Hchain, result_bind, trace_bind. repeat split.
  - destruct (noindex_trace (fun _ _ => ret NotResolved) fs index ResolveExtensions)
      as (n & Hn & Hne).
    destruct n as [|n]; [exfalso; apply Hne; [discriminate|reflexivity]|].
    exists n. exact Hn.
  - intros f Hf. rewrite Hf, (index_truthy fs (file ++ ext) f Hf).
    unfold result, trace, ret. simpl. now rewrite app_nil_r.
  - intros error He. rewrite He. unfold result, trace, ret. simpl.
    now rewrite app_nil_r.
  - intros Hn. rewrite Hn. reflexivity.
Qed.

(** [lib/] holds [index.json] only: with the fallback on, [lib/] resolves
    to [lib/index.json]. *)
Lemma index_fallback_at_directory_witness :
  resolveFile Scenario.fsIndexJsonOnly "/pkg/lib/" true
  = (ResolvedFile "/pkg/lib/index.json",
     [EvStat "/pkg/lib/"; EvStat "/pkg/lib/index"; EvStat "/pkg/lib/index.js";
      EvStat "/pkg/lib/index.json"]).
Proof.
  destruct (index_fallback_at_directory Scenario.fsIndexJsonOnly "/pkg/lib/"
              [] "" [".js"; ".json"] Scenario.aDirectory)
    as (_ & Hfile & _).
  - reflexivity.
  - constructor.
  - reflexivity.
  - reflexivity.
  - exact (Hfile "/pkg/lib/index.json" eq_refl).
Defined.

(** ** The handler's decisions, as they run *)

(** X19. On a cache miss, with the registry's document at hand, the handler
    decides in this order: a token that is an own key of the versions is
    fetched and then served; else a token that names a property inherited
    from [Object.prototype] makes the handler throw, before anything is
    fetched; else a token that is a key of the dist-tags is redirected to
    the URL of the tagged version, with the same filename and search; else
    the handler redirects to the maximum version that satisfies the token
    as a range; else it answers NotFound. *)
Theorem decision_order_of_tokens w options fs req parsed status info vs tags :
  parsePackageURL w (url req) = Some parsed ->
  result (checkLocalCache fs (tarballDir w parsed)) = false ->
  getPackageInfo w (registryURL options) (packageName parsed)
  = RegistryResponse status (Some info) ->
  status <> 404%Z ->
  versions info = Some vs ->
  dist_tags info = Some tags ->
  let run := handleRequest w options fs req in
  let redirectTo v :=
    sendRedirect
      (baseUrl req
       ++ createPackageURL w (packageName parsed) v (filename parsed)
            (search parsed))
      (redirectTTL options) in
  (forall packageConfig,
     lookup (version parsed) vs = Some packageConfig ->
     In (EvGetPackage (dist_tarball packageConfig) (tarballDir w parsed))
       (trace run)
     /\ match getPackage w (dist_tarball packageConfig) (tarballDir w parsed) fs
        with
        | (Some error, _) => result run = sendServerError error
        | (None, fs') => result run = result (serveFile w options req parsed fs')
        end)
  /\ (lookup (version parsed) vs = None ->
      inherited (version parsed) = true ->
      run = (uncaughtTypeError,
             [EvStat (joinPaths (tarballDir w parsed) "package.json");
              EvRegistry (registryURL options) (packageName parsed)]))
  /\ (forall v,
        lookup (version parsed) vs = None ->
        inherited (version parsed) = false ->
        lookup (version parsed) tags = Some v ->
        result run = redirectTo v)
  /\ (forall v,
        lookup (version parsed) vs = None ->
        inherited (version parsed) = false ->
        lookup (version parsed) tags = None ->
        maxSatisfyingVersion w (keys vs) (version parsed) = Some v ->
        truthy v = true ->
        result run = redirectTo v)
  /\ (lookup (version parsed) vs = None ->
      inherited (version parsed) = false ->
      lookup (version parsed) tags = None ->
      maxSatisfyingVersion w (keys vs) (version parsed) = None ->
      result run = sendNotFoundError (packageNotFound parsed)).
Proof.
  intros Hparse Hcache Hinfo Hstatus Hvs Htags run redirectTo. unfold run.
  rewrite (handleRequest_parsed _ _ _ _ _ Hparse), (handleParsed_miss _ _ _ _ _ Hcache).
  cbv zeta. rewrite Hinfo, !result_pair, trace_pair.
  apply Z.eqb_neq in Hstatus.
  unfold onPackageInfo. rewrite Hstatus, Hvs, Htags.
  split; [|split; [|split; [|split]]].
  - intros packageConfig Hv. rewrite Hv, bind_emit, result_pair, trace_pair.
    split; [right; right; left; reflexivity|].
    destruct (getPackage w (dist_tarball packageConfig) (tarballDir w parsed) fs)
      as [[error|] fs']; reflexivity.
  - intros Hv Hin. rewrite Hv, Hin. reflexivity.
  - intros v Hv Hin Ht. rewrite Hv, Hin, Ht. reflexivity.
  - intros v Hv Hin Ht Hmax Htruthy. rewrite Hv, Hin, Ht, Hmax, Htruthy.
    reflexivity.
  - intros Hv Hin Ht Hmax. rewrite Hv, Hin, Ht, Hmax. reflexivity.
Qed.

(** The versions are 1.0.0, 1.2.0 and 2.0.0, and the token is [^1]: the
    redirect goes to 1.2.0, with the filename and the search kept. *)
Lemma decision_order_of_tokens_witness :
  result (handleRequest Scenario.world Scenario.wrapperOptions Scenario.fsEmpty
            (Scenario.direct "/name@^1/f.js?main=browser"))
  = sendRedirect "/name@1.2.0/f.js?main=browser" 60.
Proof.
  destruct (decision_order_of_tokens Scenario.world Scenario.wrapperOptions
              Scenario.fsEmpty (Scenario.direct "/name@^1/f.js?main=browser")
              (mkPackageURL "name" "^1" "/f.js" "?main=browser") 200%Z
              (mkPackageInfo
                 (Some [("1.0.0", Scenario.tarballOf "1.0.0");
                        ("1.2.0", Scenario.tarballOf "1.2.0");
                        ("2.0.0", Scenario.tarballOf "2.0.0")])
                 (Some [("latest", "2.0.0")]))
              [("1.0.0", Scenario.tarballOf "1.0.0");
               ("1.2.0", Scenario.tarballOf "1.2.0");
               ("2.0.0", Scenario.tarballOf "2.0.0")]
              [("latest", "2.0.0")])
    as (_ & _ & _ & Hrange & _).
  - reflexivity.
  - reflexivity.
  - reflexivity.
  - discriminate.
  - reflexivity.
  - reflexivity.
  - exact (Hrange "1.2.0" eq_refl eq_refl eq_refl eq_refl eq_refl).
Defined.

(** X20. For a request without a filename on a package that is on disk, the
    handler reads the manifest.  When the query names a field that is
    neither an own key of the manifest nor a property inherited from
    [Object.prototype], the answer is NotFound naming that field; when it
    names an inherited property that is no own key, the handler throws.
    Otherwise the entry field is the one the query names, or [main]; its
    value when that is a string that is not empty, or [index] when the
    manifest lacks the field, is resolved in the cache directory with the
    index fallback on, and the file found is sent. *)
Theorem entry_point_resolution w options fs req parsed packageConfig :
  parsePackageURL w (url req) = Some parsed ->
  filename parsed = "" ->
  result (checkLocalCache fs (tarballDir w parsed)) = true ->
  fs_readManifest fs (joinPaths (tarballDir w parsed) "package.json")
  = Parsed packageConfig ->
  let queryMain :=
    match query req with
    | Some q => match lookup "main" q with Some m => m | None => "" end
    | None => ""
    end in
  let field := if truthy queryMain then queryMain else "main" in
  let run := handleRequest w options fs req in
  In (EvReadFile (joinPaths (tarballDir w parsed) "package.json")) (trace run)
  /\ (truthy queryMain = true ->
      lookup queryMain packageConfig = None ->
      (inherited queryMain = false ->
       result run
       = sendNotFoundError
           ("field " ++ dq ++ queryMain ++ dq ++ " in package.json of "
            ++ packageName parsed ++ "@" ++ version parsed))
      /\ (inherited queryMain = true -> result run = uncaughtTypeError))
  /\ (forall mainFilename,
        (truthy queryMain = true -> hasKey queryMain packageConfig = true) ->
        (lookup field packageConfig = Some (JString mainFilename)
         /\ mainFilename <> "")
        \/ (lookup field packageConfig = None /\ inherited field = false
            /\ mainFilename = "index") ->
        match result (resolveFile fs
                        (joinPaths (tarballDir w parsed) mainFilename) true) with
        | ResolvedFile file => result run = sendFile file OneYear
        | NotResolved =>
            result run
            = sendNotFoundError
                ("main file " ++ dq ++ mainFilename ++ dq ++ " in package "
                 ++ packageName parsed ++ "@" ++ version parsed)
        | ResolveError error => result run = sendServerError error
        end).
Proof.
  intros Hparse Hname Hcache Hmanifest queryMain field run. unfold run.
  rewrite (handleRequest_parsed _ _ _ _ _ Hparse), (handleParsed_cached _ _ _ _ _ Hcache).
  rewrite !result_pair, trace_pair.
  assert (Hbower : (filename parsed =? bowerBundle options) = false).
  { rewrite Hname. unfold bowerBundle, orElse.
    destruct (opt_bowerBundle options) as [s|]; [|reflexivity].
    destruct (truthy s) eqn:Hs; [|reflexivity].
    unfold truthy in Hs. apply negb_true_iff in Hs.
    now rewrite String.eqb_sym. }
  unfold serveFile. rewrite Hbower, Hname. cbv zeta.
  change (truthy "") with false. cbv iota.
  rewrite bind_emit, Hmanifest, !result_pair, trace_pair.
  fold queryMain. fold field.
  split; [right; left; reflexivity|]. split.
  - intros Htruthy Hlack. unfold hasProperty, hasKey.
    rewrite Htruthy, Hlack. cbn [orb]. split.
    + intros ->. reflexivity.
    + intros Hin. rewrite Hin. cbn [negb andb]. unfold field.
      rewrite Htruthy, Hlack, Hin. reflexivity.
  - intros mainFilename Hhas Hvalue.
    assert (Hgo : (truthy queryMain && negb (hasProperty queryMain packageConfig))
                  = false).
    { unfold hasProperty.
      destruct (truthy queryMain); [|reflexivity]. now rewrite (Hhas eq_refl). }
    rewrite Hgo.
    assert (Hmain :
      match lookup field packageConfig with
      | Some v => if jsTruthy v then v else JString "index"
      | None => if inherited field then JObject else JString "index"
      end = JString mainFilename).
    { destruct Hvalue as [[-> Hne]|(-> & -> & ->)]; [|reflexivity].
      simpl. now rewrite (truthy_nonempty _ Hne). }
    rewrite Hmain, result_bind.
    destruct (result (resolveFile fs
                        (joinPaths (tarballDir w parsed) mainFilename) true));
      cbv beta iota; reflexivity.
Qed.

(** The manifest declares [lib/foo] as main and only [lib/foo.js] is
    there: the package root is served as [lib/foo.js]. *)
Lemma entry_point_resolution_witness :
  result (handleRequest Scenario.world Scenario.wrapperOptions Scenario.fsMain
            (Scenario.direct "/name@1.0.0"))
  = sendFile "/tmp/name-1.0.0/lib/foo.js" OneYear.
Proof.
  destruct (entry_point_resolution Scenario.world Scenario.wrapperOptions
              Scenario.fsMain (Scenario.direct "/name@1.0.0")
              (mkPackageURL "name" "1.0.0" "" "")
              [("name", JString "name"); ("version", JString "1.0.0");
               ("main", JString "lib/foo")])
    as (_ & _ & Hmain).
  - reflexivity.
  - reflexivity.
  - reflexivity.
  - reflexivity.
  - specialize (Hmain "lib/foo").
    apply Hmain.
    + discriminate.
    + left. split; [reflexivity|discriminate].
Defined.

(** X21. Every NotFound of the handler names what is missing.  On a cache
    miss, a package that the registry does not know (status 404) is
    answered NotFound naming the package; and a token that is no own key of
    the versions, no name inherited from [Object.prototype], no tag and no
    satisfiable range is answered NotFound naming [package@token]. *)
Theorem not_found_names_subject w options fs req parsed :
  parsePackageURL w (url req) = Some parsed ->
  let run := handleRequest w options fs req in
  let answer := getPackageInfo w (registryURL options) (packageName parsed) in
  (forall what, result run = sendNotFoundError what -> namesSubject parsed what)
  /\ (result (checkLocalCache fs (tarballDir w parsed)) = false ->
      (forall jsonData,
         answer = RegistryResponse 404 jsonData ->
         result run
         = sendNotFoundError ("package " ++ dq ++ packageName parsed ++ dq))
      /\ (forall status info vs tags,
            answer = RegistryResponse status (Some info) ->
            status <> 404%Z ->
            versions info = Some vs ->
            dist_tags info = Some tags ->
            lookup (version parsed) vs = None ->
            inherited (version parsed) = false ->
            lookup (version parsed) tags = None ->
            maxSatisfyingVersion w (keys vs) (version parsed) = None ->
            result run
            = sendNotFoundError
                ("package " ++ packageName parsed ++ "@" ++ version parsed))).
Proof.
  intros Hparse run answer. unfold run, answer.
  rewrite (handleRequest_parsed _ _ _ _ _ Hparse). split.
  { intros what. apply handleParsed_not_found. }
  intros Hcache. rewrite (handleParsed_miss _ _ _ _ _ Hcache).
  cbv zeta. rewrite !result_pair. split.
  - intros jsonData ->. reflexivity.
  - intros status info vs tags -> Hstatus Hvs Htags Hv Hin Ht Hmax.
    apply Z.eqb_neq in Hstatus.
    unfold onPackageInfo. rewrite Hstatus, Hvs, Hv, Hin, Htags, Ht, Hmax.
    reflexivity.
Qed.

(** A package that the registry does not know, and a range that no
    version of [name] satisfies. *)
Lemma not_found_names_subject_witness :
  result (handleRequest Scenario.world Scenario.wrapperOptions Scenario.fsEmpty
            (Scenario.direct "/nosuch@1.0.0/f.js"))
  = sendNotFoundError ("package " ++ dq ++ "nosuch" ++ dq)
  /\ result (handleRequest Scenario.world Scenario.wrapperOptions
               Scenario.fsEmpty (Scenario.direct "/name@^3/f.js"))
     = sendNotFoundError "package name@^3".
Proof.
  split.
  - destruct (not_found_names_subject Scenario.world Scenario.wrapperOptions
                Scenario.fsEmpty (Scenario.direct "/nosuch@1.0.0/f.js")
                (mkPackageURL "nosuch" "1.0.0" "/f.js" "") eq_refl)
      as (_ & Hmiss).
    destruct (Hmiss eq_refl) as (Hpackage & _).
    exact (Hpackage None eq_refl).
  - destruct (not_found_names_subject Scenario.world Scenario.wrapperOptions
                Scenario.fsEmpty (Scenario.direct "/name@^3/f.js")
                (mkPackageURL "name" "^3" "/f.js" "") eq_refl)
      as (_ & Hmiss).
    destruct (Hmiss eq_refl) as (_ & Hrange).
    refine (Hrange 200%Z _ _ _ eq_refl _ eq_refl eq_refl eq_refl eq_refl
              eq_refl eq_refl).
    discriminate.
Defined.

Lemma expanded_array path lastModified mime size type entries :
  expanded (mkEntry path lastModified mime size type (ChildrenArray entries))
  = forallb expanded entries.
Proof.
  cbn [expanded]. induction entries as [|e rest IH]; [reflexivity|].
  cbn [forallb]. now rewrite IH.
Qed.

Lemma promiseAll_stable {A B} (f g : A -> JsError + B) (P : B -> bool) l l' :
  (forall x y, f x = inr y -> P y = true -> g x = inr y) ->
  promiseAll f l = inr l' -> forallb P l' = true -> promiseAll g l = inr l'.
Proof.
  intros Hfg. revert l'. induction l as [|x rest IH]; intros l';
    cbn [promiseAll]; [easy|].
  destruct (f x) as [e|y] eqn:Hx; [discriminate|].
  destruct (promiseAll f rest) as [e|ys]; [discriminate|].
  intros [= <-]. cbn [forallb]. intros [Hy Hys]%andb_prop.
  now rewrite (Hfg _ _ Hx Hy), (IH _ eq_refl Hys).
Qed.

Lemma promiseAll_rejects {A B} (f : A -> JsError + B) l error :
  promiseAll f l = inl error -> exists x, In x l /\ f x = inl error.
Proof.
  induction l as [|x rest IH]; cbn [promiseAll]; [discriminate|].
  destruct (f x) as [e|y] eqn:Hx.
  - intros [= ->]. exists x. split; [now left|exact Hx].
  - destruct (promiseAll f rest) as [e|ys]; [|discriminate].
    intros [= ->]. destruct (IH eq_refl) as (x' & Hin & Hx').
    exists x'. split; [now right|exact Hx'].
Qed.

Lemma getEntries_stable gct fs maximumDepth :
  forall baseDir name entries,
    getEntries gct fs baseDir name maximumDepth = inr entries ->
    forallb expanded entries = true ->
    getEntries gct fs baseDir name (S maximumDepth) = inr entries.
Proof.
  induction maximumDepth as [|depth IH]; intros baseDir name entries;
    rewrite (getEntries_eq _ _ _ _ (S _)), getEntries_eq;
    (destruct (fs_readdir fs _) as [e|files]; [discriminate|]);
    (destruct (promiseAll _ files) as [e|statsArray]; [discriminate|]);
    apply promiseAll_stable; intros [file stats] y; unfold resolveEntry;
    (destruct (isDirectory stats); [|easy]); unfold resolveDirectory.
  - intros [= <-]. discriminate.
  - destruct (getEntries gct fs baseDir _ depth) as [e|children] eqn:Hbelow;
      [discriminate|].
    intros [= <-]. rewrite expanded_array. intros Hall.
    now rewrite (IH _ _ _ Hbelow Hall).
Qed.

Lemma getEntries_rejection_stable gct fs maximumDepth :
  forall baseDir name error,
    getEntries gct fs baseDir name maximumDepth = inl error ->
    exists error', getEntries gct fs baseDir name (S maximumDepth) = inl error'.
Proof.
  induction maximumDepth as [|depth IH]; intros baseDir name error;
    rewrite (getEntries_eq _ _ _ _ (S _)), getEntries_eq;
    (destruct (fs_readdir fs _) as [e|files]; [now exists e|]);
    (destruct (promiseAll _ files) as [e|statsArray]; [now exists e|]);
    intros ([file stats] & Hin & Hx)%promiseAll_rejects;
    revert Hx; unfold resolveEntry at 1;
    (destruct (isDirectory stats) eqn:Hdir; [|discriminate]);
    unfold resolveDirectory at 1; [discriminate|].
  destruct (getEntries gct fs baseDir _ depth) as [e|children] eqn:Hbelow;
    [|discriminate].
  intros _. destruct (IH _ _ _ Hbelow) as (e' & He').
  refine (promiseAll_fails _ _ (file, stats) e' Hin _).
  unfold resolveEntry, resolveDirectory. now rewrite Hdir, He'.
Qed.

(** X22. A greater depth changes nothing in a tree that already expands
    every directory, and a build that fails at one depth fails at every
    greater depth: what [getEntries] gives at a depth where no [children]
    is [null] or where it fails is what it gives without a limit. *)
Theorem getEntries_beyond_depth gct fs baseDir name maximumDepth more :
  (forall entries,
     getEntries gct fs baseDir name maximumDepth = inr entries ->
     forallb expanded entries = true ->
     getEntries gct fs baseDir name (maximumDepth + more) = inr entries)
  /\ (forall error,
        getEntries gct fs baseDir name maximumDepth = inl error ->
        exists error',
          getEntries gct fs baseDir name (maximumDepth + more) = inl error').
Proof.
  induction more as [|more [IHok IHfail]].
  - rewrite Nat.add_0_r. split; [easy|]. intros error ->. now exists error.
  - rewrite Nat.add_succ_r. split.
    + intros entries Hbuilt Hall.
      exact (getEntries_stable _ _ _ _ _ _ (IHok _ Hbuilt Hall) Hall).
    + intros error Hfail. destruct (IHfail _ Hfail) as (e' & He').
      exact (getEntries_rejection_stable _ _ _ _ _ _ He').
Qed.

(** [lib/] of [name@1.0.0] nests one directory: its tree is the same from
    the depth 1 on. *)
Lemma getEntries_beyond_depth_witness :
  getEntries Instances.getContentType Scenario.fsTree "/tmp/name-1.0.0"
    "/lib/" 1
  = inr [mkEntry "/lib/a.js" "2016-03-01T10:00:00.000Z"
           "application/javascript" 120 "file" ChildrenAbsent;
         mkEntry "/lib/sub" "2016-03-01T10:00:00.000Z" "text/plain" 4096
           "directory"
           (ChildrenArray
              [mkEntry "/lib/sub/b.js" "2016-03-01T10:00:00.000Z"
                 "application/javascript" 120 "file" ChildrenAbsent])]
  /\ getEntries Instances.getContentType Scenario.fsTree "/tmp/name-1.0.0"
       "/lib/" (1 + 63)
     = getEntries Instances.getContentType Scenario.fsTree "/tmp/name-1.0.0"
         "/lib/" 1.
Proof.
  split; [reflexivity|].
  destruct (getEntries_beyond_depth Instances.getContentType Scenario.fsTree
              "/tmp/name-1.0.0" "/lib/" 1 63) as [Hsame _].
  rewrite (Hsame _ eq_refl eq_refl). reflexivity.
Defined.
